(** * web_server.ino: the MS430 web-server example

    A shallow embedding of [Arduino/Examples/web_server/web_server.ino]:
    the page assembler [assembleWebPage], the client dispatcher
    [handleClientRequests], the start-up code [setup] and the body of
    [loop], followed by the properties of the design document that can
    be stated about them. *)

From Stdlib Require Import ZArith List String Ascii Bool Lia.
Import ListNotations.

Local Open Scope string_scope.
Local Open Scope Z_scope.

Abbreviation strlen := String.length.

(** ** Text, and the conversions of [sprintf] *)

Definition CR : ascii := ascii_of_nat 13.
Definition LF : ascii := ascii_of_nat 10.
Definition CRLF : string := String CR (String LF "").

Definition digit_char (d : Z) : ascii := ascii_of_nat (48 + Z.to_nat d).

(** Decimal digits of [v], most significant first, in front of [acc]. *)
Fixpoint decimal (fuel : nat) (v : Z) (acc : string) : string :=
  match fuel with
  | O => acc
  | S fuel' =>
      let acc' := String (digit_char (v mod 10)) acc in
      if v <? 10 then acc' else decimal fuel' (v / 10) acc'
  end.

(** [%u] and [%PRIu32] on the 32-bit hosts the sketch is written for: the
    argument is read as a 32-bit unsigned value, which has at most ten
    digits. *)
Definition fmt_u (v : Z) : string := decimal 10 (v mod 2 ^ 32) "".

(** [%02u]: at least two digits, padded with zeros on the left. *)
Definition fmt_02u (v : Z) : string :=
  let s := fmt_u v in
  if (strlen s <? 2)%nat then "0" ++ s else s.

(** ** The declarations of [Metriful_sensor.h] used by the sketch *)

(** Modelled from the spec: the record types are declared in
    [Metriful_sensor.h], which is not among the sources.  The fields are
    the ones the sketch reads; the temperature is held as a signed
    magnitude with one fractional digit and is only reached through
    [getTemperature]. *)
Record AirData_t := {
  T_C_int_with_sign : Z;
  T_C_fr_1dp : Z;
  P_Pa : Z;
  H_pc_int : Z;
  H_pc_fr_1dp : Z;
  G_ohm : Z
}.

Record AirQualityData_t := {
  AQI_int : Z;
  AQI_fr_1dp : Z;
  CO2e_int : Z;
  CO2e_fr_1dp : Z;
  bVOC_int : Z;
  bVOC_fr_2dp : Z;
  AQI_accuracy : Z
}.

Record LightData_t := {
  illum_lux_int : Z;
  illum_lux_fr_2dp : Z;
  white : Z
}.

Record SoundData_t := {
  SPL_dBA_int : Z;
  SPL_dBA_fr_1dp : Z;
  SPL_bands_dB_int : list Z;
  SPL_bands_dB_fr_1dp : list Z;
  peak_amp_mPa_int : Z;
  peak_amp_mPa_fr_2dp : Z
}.

Record ParticleData_t := {
  duty_cycle_pc_int : Z;
  duty_cycle_pc_fr_2dp : Z;
  concentration_int : Z;
  concentration_fr_2dp : Z
}.

(** What [getTemperature] hands back: the unit string it returns and the
    three values it stores through its pointer arguments. *)
Record Temperature := {
  T_unit : string;
  T_intPart : Z;
  T_fractionalPart : Z;
  isPositive : bool
}.

(** The macros, the table and the helper functions of the header, taken
    as parameters of the sketch. *)
Class Metriful_sensor_h := {
  CYCLE_PERIOD_3_S : Z;
  CYCLE_PERIOD_100_S : Z;
  CYCLE_PERIOD_300_S : Z;
  PARTICLE_SENSOR : Z;
  PARTICLE_SENSOR_OFF : Z;
  PARTICLE_SENSOR_PPD42 : Z;
  PARTICLE_SENSOR_SDS011 : Z;
  SOUND_FREQ_BANDS : Z;
  sound_band_mids_Hz : list Z;
  OHM_SYMBOL : string;
  SUBSCRIPT_2 : string;
  SDS011_UNIT_SYMBOL : string;
  getTemperature : AirData_t -> Temperature;
  interpret_AQI_accuracy : Z -> string;
  interpret_AQI_value : Z -> string
}.

(** ** Global variables of the sketch *)

Record IPAddress := { ip0 : Z; ip1 : Z; ip2 : Z; ip3 : Z }.

Record Globals := {
  cycle_period : Z;
  createWifiNetwork : bool;
  theIP : IPAddress;
  refreshPeriodSeconds : Z;
  airData : AirData_t;
  airQualityData : AirQualityData_t;
  lightData : LightData_t;
  particleData : ParticleData_t;
  soundData : SoundData_t;
  lineBuffer : string;
  pageBuffer : string;
  ready_assertion_event : bool
}.

Definition set_lineBuffer (s : string) (g : Globals) : Globals :=
  {| cycle_period := cycle_period g; createWifiNetwork := createWifiNetwork g;
     theIP := theIP g; refreshPeriodSeconds := refreshPeriodSeconds g;
     airData := airData g; airQualityData := airQualityData g;
     lightData := lightData g; particleData := particleData g;
     soundData := soundData g; lineBuffer := s; pageBuffer := pageBuffer g;
     ready_assertion_event := ready_assertion_event g |}.

Definition set_pageBuffer (s : string) (g : Globals) : Globals :=
  {| cycle_period := cycle_period g; createWifiNetwork := createWifiNetwork g;
     theIP := theIP g; refreshPeriodSeconds := refreshPeriodSeconds g;
     airData := airData g; airQualityData := airQualityData g;
     lightData := lightData g; particleData := particleData g;
     soundData := soundData g; lineBuffer := lineBuffer g; pageBuffer := s;
     ready_assertion_event := ready_assertion_event g |}.

Definition set_ready_assertion_event (b : bool) (g : Globals) : Globals :=
  {| cycle_period := cycle_period g; createWifiNetwork := createWifiNetwork g;
     theIP := theIP g; refreshPeriodSeconds := refreshPeriodSeconds g;
     airData := airData g; airQualityData := airQualityData g;
     lightData := lightData g; particleData := particleData g;
     soundData := soundData g; lineBuffer := lineBuffer g;
     pageBuffer := pageBuffer g; ready_assertion_event := b |}.

Definition set_theIP (ip : IPAddress) (g : Globals) : Globals :=
  {| cycle_period := cycle_period g; createWifiNetwork := createWifiNetwork g;
     theIP := ip; refreshPeriodSeconds := refreshPeriodSeconds g;
     airData := airData g; airQualityData := airQualityData g;
     lightData := lightData g; particleData := particleData g;
     soundData := soundData g; lineBuffer := lineBuffer g;
     pageBuffer := pageBuffer g;
     ready_assertion_event := ready_assertion_event g |}.

Definition set_refreshPeriodSeconds (r : Z) (g : Globals) : Globals :=
  {| cycle_period := cycle_period g; createWifiNetwork := createWifiNetwork g;
     theIP := theIP g; refreshPeriodSeconds := r;
     airData := airData g; airQualityData := airQualityData g;
     lightData := lightData g; particleData := particleData g;
     soundData := soundData g; lineBuffer := lineBuffer g;
     pageBuffer := pageBuffer g;
     ready_assertion_event := ready_assertion_event g |}.

Definition set_data (a : AirData_t) (q : AirQualityData_t) (l : LightData_t)
    (s : SoundData_t) (p : ParticleData_t) (g : Globals) : Globals :=
  {| cycle_period := cycle_period g; createWifiNetwork := createWifiNetwork g;
     theIP := theIP g; refreshPeriodSeconds := refreshPeriodSeconds g;
     airData := a; airQualityData := q; lightData := l; particleData := p;
     soundData := s; lineBuffer := lineBuffer g; pageBuffer := pageBuffer g;
     ready_assertion_event := ready_assertion_event g |}.

(** The interrupt routine of the sensor may run at any time; it sets
    [ready_assertion_event] and never clears it. *)
Definition interrupt (asserted : bool) (g : Globals) : Globals :=
  set_ready_assertion_event (ready_assertion_event g || asserted) g.

(** ** Writing into the fixed-size character arrays

    A C string of [n] characters occupies [n + 1] bytes.  A write that
    does not fit its array runs past the end of it; the model stops there
    with [None]. *)

Definition lineBuffer_size : nat := 100.
Definition pageBuffer_size : nat := 2300.
Definition unitsBuffer_size : nat := 7.

Definition fits (s : string) (size : nat) : bool := (strlen s <? size)%nat.

Definition stmt := Globals -> option Globals.

Definition seq (a b : stmt) : stmt :=
  fun g => match a g with Some g' => b g' | None => None end.

Declare Scope stmt_scope.
Delimit Scope stmt_scope with stmt.
Notation "a ;; b" := (seq a b) (at level 61, right associativity) : stmt_scope.

(** [sprintf(pageBuffer, ...)] producing the text [s g]. *)
Definition sprintf_pageBuffer (s : Globals -> string) : stmt :=
  fun g => if fits (s g) pageBuffer_size then Some (set_pageBuffer (s g) g) else None.

(** [sprintf(lineBuffer, ...)] producing the text [s g]. *)
Definition sprintf_lineBuffer (s : Globals -> string) : stmt :=
  fun g => if fits (s g) lineBuffer_size then Some (set_lineBuffer (s g) g) else None.

(** [strcat(pageBuffer, s)] for a string literal [s]. *)
Definition strcat_pageBuffer (s : string) : stmt :=
  fun g =>
    if fits (pageBuffer g ++ s) pageBuffer_size
    then Some (set_pageBuffer (pageBuffer g ++ s) g) else None.

(** [strcat(pageBuffer, lineBuffer)]. *)
Definition strcat_pageBuffer_lineBuffer : stmt :=
  fun g => strcat_pageBuffer (lineBuffer g) g.

(** [strcpy(unitsBuffer, s)] into the local [char unitsBuffer[7]]. *)
Definition strcpy_unitsBuffer (s : string) : option string :=
  if fits s unitsBuffer_size then Some s else None.

(** ** The page assembler *)

Section Sketch.

Context {hdr : Metriful_sensor_h}.

Definition http_header (refresh : Z) : string :=
  "HTTP/1.1 200 OK" ++ CRLF ++
  "Content-type: text/html" ++ CRLF ++
  "Connection: close" ++ CRLF ++
  "Refresh: " ++ fmt_u refresh ++ CRLF ++ CRLF.

Definition html_head : string :=
  "<!DOCTYPE HTML><html><head>" ++
  "<meta charset='UTF-8'>" ++
  "<title>Metriful Sensor Demo</title>" ++
  "<style>" ++
  "h1{font-size: 3vw;}" ++
  "h2{font-size: 2vw; margin-top: 4vw;}" ++
  "a{padding: 1vw; font-size: 2vw;}" ++
  "table,th,td{font-size: 2vw;}" ++
  "body{padding: 0vw 2vw;}" ++
  "th,td{padding: 0.05vw 1vw; text-align: left;}" ++
  "#v1{text-align: right; width: 10vw;}" ++
  "#v2{text-align: right; width: 13vw;}" ++
  "#v3{text-align: right; width: 10vw;}" ++
  "#v4{text-align: right; width: 10vw;}" ++
  "#v5{text-align: right; width: 11vw;}" ++
  "</style></head>" ++
  "<body><h1>Indoor Environment Data</h1>".

Definition temperature_row (t : Temperature) : string :=
  "<tr><td>Temperature</td><td id='v1'>" ++
  (if isPositive t then "" else "-") ++ fmt_u (T_intPart t) ++ "." ++
  fmt_u (T_fractionalPart t) ++ "</td><td>" ++ T_unit t ++ "</td></tr>".

Definition pressure_row (a : AirData_t) : string :=
  "<tr><td>Pressure</td><td id='v1'>" ++ fmt_u (P_Pa a) ++ "</td><td>Pa</td></tr>".

Definition humidity_row (a : AirData_t) : string :=
  "<tr><td>Humidity</td><td id='v1'>" ++ fmt_u (H_pc_int a) ++ "." ++
  fmt_u (H_pc_fr_1dp a) ++ "</td><td>%</td></tr>".

Definition gas_row (a : AirData_t) : string :=
  "<tr><td>Gas Sensor Resistance</td>" ++
  "<td id='v1'>" ++ fmt_u (G_ohm a) ++ "</td><td>" ++ OHM_SYMBOL ++
  "</td></tr></table></p>".

Definition accuracy_message (q : AirQualityData_t) : string :=
  "<a>" ++ interpret_AQI_accuracy (AQI_accuracy q) ++ "</a></p>".

Definition aqi_row (q : AirQualityData_t) : string :=
  "<table><tr><td>Air Quality Index</td><td id='v2'>" ++ fmt_u (AQI_int q) ++
  "." ++ fmt_u (AQI_fr_1dp q) ++ "</td><td></td></tr>".

Definition aqi_summary_row (q : AirQualityData_t) : string :=
  "<tr><td>Air Quality Summary</td><td id='v2'>" ++
  interpret_AQI_value (AQI_int q) ++ "</td><td></td></tr>".

Definition co2_row (q : AirQualityData_t) : string :=
  "<tr><td>Estimated CO" ++ SUBSCRIPT_2 ++ "</td><td id='v2'>" ++
  fmt_u (CO2e_int q) ++ "." ++ fmt_u (CO2e_fr_1dp q) ++ "</td><td>ppm</td></tr>".

Definition bvoc_row (q : AirQualityData_t) : string :=
  "<tr><td>Equivalent Breath VOC</td>" ++
  "<td id='v2'>" ++ fmt_u (bVOC_int q) ++ "." ++ fmt_02u (bVOC_fr_2dp q) ++
  "</td><td>ppm</td></tr></table></p>".

Definition spl_row (s : SoundData_t) : string :=
  "<tr><td>A-weighted Sound Pressure Level</td>" ++
  "<td id='v3'>" ++ fmt_u (SPL_dBA_int s) ++ "." ++ fmt_u (SPL_dBA_fr_1dp s) ++
  "</td><td>dBA</td></tr>".

Definition band_row (i mid level level_fr : Z) : string :=
  "<tr><td>Frequency Band " ++ fmt_u (i + 1) ++ " (" ++ fmt_u mid ++ " Hz) SPL</td>" ++
  "<td id='v3'>" ++ fmt_u level ++ "." ++ fmt_u level_fr ++ "</td><td>dB</td></tr>".

Definition peak_row (s : SoundData_t) : string :=
  "<tr><td>Peak Sound Amplitude</td>" ++
  "<td id='v3'>" ++ fmt_u (peak_amp_mPa_int s) ++ "." ++
  fmt_02u (peak_amp_mPa_fr_2dp s) ++ "</td><td>mPa</td></tr></table></p>".

Definition illuminance_row (l : LightData_t) : string :=
  "<tr><td>Illuminance</td><td id='v4'>" ++ fmt_u (illum_lux_int l) ++ "." ++
  fmt_02u (illum_lux_fr_2dp l) ++ "</td><td>lux</td></tr>".

Definition white_row (l : LightData_t) : string :=
  "<tr><td>White Light Level</td><td id='v4'>" ++ fmt_u (white l) ++
  "</td><td></td></tr>" ++ "</table></p>".

Definition duty_cycle_row (p : ParticleData_t) : string :=
  "<tr><td>Sensor Duty Cycle</td><td id='v5'>" ++ fmt_u (duty_cycle_pc_int p) ++
  "." ++ fmt_02u (duty_cycle_pc_fr_2dp p) ++ "</td><td>%</td></tr>".

Definition concentration_row (p : ParticleData_t) (unitsBuffer : string) : string :=
  "<tr><td>Particle Concentration</td>" ++
  "<td id='v5'>" ++ fmt_u (concentration_int p) ++ "." ++
  fmt_02u (concentration_fr_2dp p) ++ "</td><td>" ++ unitsBuffer ++
  "</td></tr></table></p>".

(** [for (uint8_t i=0; i<SOUND_FREQ_BANDS; i++)]: the counter is eight bits
    wide, so the loop leaves within 256 rounds or not at all; [fuel] counts
    the rounds that remain, and an index outside a table stops the model. *)
Fixpoint sound_band_rows (fuel : nat) (i : Z) : stmt :=
  fun g =>
    match fuel with
    | O => None
    | S fuel' =>
        if i <? SOUND_FREQ_BANDS then
          match nth_error sound_band_mids_Hz (Z.to_nat i),
                nth_error (SPL_bands_dB_int (soundData g)) (Z.to_nat i),
                nth_error (SPL_bands_dB_fr_1dp (soundData g)) (Z.to_nat i) with
          | Some mid, Some level, Some level_fr =>
              (sprintf_lineBuffer (fun _ => band_row i mid level level_fr) ;;
               strcat_pageBuffer_lineBuffer ;;
               sound_band_rows fuel' ((i + 1) mod 256))%stmt g
          | _, _, _ => None
          end
        else Some g
    end.

(** The choice of the unit label copied into [unitsBuffer]. *)
Definition particle_units : option string :=
  if PARTICLE_SENSOR =? PARTICLE_SENSOR_PPD42 then strcpy_unitsBuffer "ppL"
  else if PARTICLE_SENSOR =? PARTICLE_SENSOR_SDS011 then strcpy_unitsBuffer SDS011_UNIT_SYMBOL
  else strcpy_unitsBuffer "(?)".

Definition air_quality_section : stmt :=
  fun g =>
    if AQI_accuracy (airQualityData g) =? 0 then
      (sprintf_lineBuffer (fun g => accuracy_message (airQualityData g)) ;;
       strcat_pageBuffer_lineBuffer)%stmt g
    else
      (sprintf_lineBuffer (fun g => aqi_row (airQualityData g)) ;;
       strcat_pageBuffer_lineBuffer ;;
       sprintf_lineBuffer (fun g => aqi_summary_row (airQualityData g)) ;;
       strcat_pageBuffer_lineBuffer ;;
       sprintf_lineBuffer (fun g => co2_row (airQualityData g)) ;;
       strcat_pageBuffer_lineBuffer ;;
       sprintf_lineBuffer (fun g => bvoc_row (airQualityData g)) ;;
       strcat_pageBuffer_lineBuffer)%stmt g.

Definition particle_section : stmt :=
  fun g =>
    if negb (PARTICLE_SENSOR =? PARTICLE_SENSOR_OFF) then
      (strcat_pageBuffer "<p><h2>Air Particulate Data</h2><table>" ;;
       sprintf_lineBuffer (fun g => duty_cycle_row (particleData g)) ;;
       strcat_pageBuffer_lineBuffer ;;
       (fun g =>
          match particle_units with
          | Some unitsBuffer =>
              (sprintf_lineBuffer
                 (fun g => concentration_row (particleData g) unitsBuffer) ;;
               strcat_pageBuffer_lineBuffer)%stmt g
          | None => None
          end))%stmt g
    else Some g.

Definition assembleWebPage : stmt :=
  (sprintf_pageBuffer (fun g => http_header (refreshPeriodSeconds g)) ;;
   strcat_pageBuffer html_head ;;
   strcat_pageBuffer "<p><h2>Air Data</h2><table>" ;;
   sprintf_lineBuffer (fun g => temperature_row (getTemperature (airData g))) ;;
   strcat_pageBuffer_lineBuffer ;;
   sprintf_lineBuffer (fun g => pressure_row (airData g)) ;;
   strcat_pageBuffer_lineBuffer ;;
   sprintf_lineBuffer (fun g => humidity_row (airData g)) ;;
   strcat_pageBuffer_lineBuffer ;;
   sprintf_lineBuffer (fun g => gas_row (airData g)) ;;
   strcat_pageBuffer_lineBuffer ;;
   strcat_pageBuffer "<p><h2>Air Quality Data</h2>" ;;
   air_quality_section ;;
   strcat_pageBuffer "<p><h2>Sound Data</h2><table>" ;;
   sprintf_lineBuffer (fun g => spl_row (soundData g)) ;;
   strcat_pageBuffer_lineBuffer ;;
   sound_band_rows 257 0 ;;
   sprintf_lineBuffer (fun g => peak_row (soundData g)) ;;
   strcat_pageBuffer_lineBuffer ;;
   strcat_pageBuffer "<p><h2>Light Data</h2><table>" ;;
   sprintf_lineBuffer (fun g => illuminance_row (lightData g)) ;;
   strcat_pageBuffer_lineBuffer ;;
   sprintf_lineBuffer (fun g => white_row (lightData g)) ;;
   strcat_pageBuffer_lineBuffer ;;
   particle_section ;;
   strcat_pageBuffer "</body></html>")%stmt.

End Sketch.

(** ** The text a successful run leaves in [pageBuffer] *)

Section PageText.

Context {hdr : Metriful_sensor_h}.

Definition air_quality_text (q : AirQualityData_t) : string :=
  if AQI_accuracy q =? 0 then accuracy_message q
  else aqi_row q ++ aqi_summary_row q ++ co2_row q ++ bvoc_row q.

(** The rows of the bands [i], [i+1], ..., [i+n-1]. *)
Fixpoint band_rows_text (n : nat) (i : Z) (s : SoundData_t) : string :=
  match n with
  | O => ""
  | S n' =>
      band_row i (nth (Z.to_nat i) sound_band_mids_Hz 0)
                 (nth (Z.to_nat i) (SPL_bands_dB_int s) 0)
                 (nth (Z.to_nat i) (SPL_bands_dB_fr_1dp s) 0) ++
      band_rows_text n' (i + 1) s
  end.

Definition units_label : string :=
  if PARTICLE_SENSOR =? PARTICLE_SENSOR_PPD42 then "ppL"
  else if PARTICLE_SENSOR =? PARTICLE_SENSOR_SDS011 then SDS011_UNIT_SYMBOL
  else "(?)".

Definition particle_text (p : ParticleData_t) : string :=
  if negb (PARTICLE_SENSOR =? PARTICLE_SENSOR_OFF) then
    "<p><h2>Air Particulate Data</h2><table>" ++
    duty_cycle_row p ++ concentration_row p units_label
  else "".

Definition sound_text (s : SoundData_t) : string :=
  "<p><h2>Sound Data</h2><table>" ++
  spl_row s ++ band_rows_text (Z.to_nat SOUND_FREQ_BANDS) 0 s ++ peak_row s.

Definition page_tail (g : Globals) : string :=
  sound_text (soundData g) ++
  "<p><h2>Light Data</h2><table>" ++
  illuminance_row (lightData g) ++
  white_row (lightData g) ++
  particle_text (particleData g) ++
  "</body></html>".

Definition air_text (g : Globals) : string :=
  "<p><h2>Air Data</h2><table>" ++
  temperature_row (getTemperature (airData g)) ++
  pressure_row (airData g) ++
  humidity_row (airData g) ++
  gas_row (airData g).

Definition page_body (g : Globals) : string :=
  html_head ++ air_text g ++
  "<p><h2>Air Quality Data</h2>" ++ air_quality_text (airQualityData g) ++
  page_tail g.

Definition page_text (g : Globals) : string :=
  http_header (refreshPeriodSeconds g) ++ page_body g.

End PageText.

(** ** Ranges of the values

    Modelled from the spec: the types of the fields are declared in the
    missing header.  An integer part ranges over an unsigned type of 8,
    16 or 32 bits, as wide as the datum needs; a fractional part holds
    the one or two decimal digits that its name announces and that the
    page prints. *)

Definition uint8 (v : Z) : Prop := 0 <= v < 256.
Definition uint16 (v : Z) : Prop := 0 <= v < 65536.
Definition uint32 (v : Z) : Prop := 0 <= v < 2 ^ 32.
Definition fr_1dp (v : Z) : Prop := 0 <= v < 10.
Definition fr_2dp (v : Z) : Prop := 0 <= v < 100.

Section Ranges.

Context {hdr : Metriful_sensor_h}.

(** What the sketch needs from the header to stay within its three
    character arrays: three distinct codes for the particulate sensor, at
    most six sound bands with a 16-bit midpoint each, a temperature handed
    back as an 8-bit integer part with one fractional digit, and strings
    no longer than the UTF-8 unit symbols and the interpretation texts of
    the device library (the SDS011 symbol has to fit the seven bytes of
    [unitsBuffer] when that sensor is selected). *)
Record header_ok : Prop := {
  particle_codes_distinct :
    PARTICLE_SENSOR_OFF <> PARTICLE_SENSOR_PPD42 /\
    PARTICLE_SENSOR_OFF <> PARTICLE_SENSOR_SDS011 /\
    PARTICLE_SENSOR_PPD42 <> PARTICLE_SENSOR_SDS011;
  bands_count : 0 <= SOUND_FREQ_BANDS <= 6;
  bands_table : List.length sound_band_mids_Hz = Z.to_nat SOUND_FREQ_BANDS;
  bands_mids : Forall uint16 sound_band_mids_Hz;
  temperature_range : forall a,
    uint8 (T_intPart (getTemperature a)) /\
    fr_1dp (T_fractionalPart (getTemperature a)) /\
    (strlen (T_unit (getTemperature a)) <= 3)%nat;
  ohm_length : (strlen OHM_SYMBOL <= 2)%nat;
  subscript_length : (strlen SUBSCRIPT_2 <= 3)%nat;
  sds011_length :
    PARTICLE_SENSOR = PARTICLE_SENSOR_SDS011 -> (strlen SDS011_UNIT_SYMBOL <= 6)%nat;
  accuracy_length : forall a, (strlen (interpret_AQI_accuracy a) <= 88)%nat;
  aqi_value_length : forall a, (strlen (interpret_AQI_value a) <= 11)%nat
}.

Record air_in_range (a : AirData_t) : Prop := {
  P_Pa_range : uint32 (P_Pa a);
  H_pc_int_range : uint8 (H_pc_int a);
  H_pc_fr_range : fr_1dp (H_pc_fr_1dp a);
  G_ohm_range : uint32 (G_ohm a)
}.

Record air_quality_in_range (q : AirQualityData_t) : Prop := {
  AQI_int_range : uint16 (AQI_int q);
  AQI_fr_range : fr_1dp (AQI_fr_1dp q);
  CO2e_int_range : uint16 (CO2e_int q);
  CO2e_fr_range : fr_1dp (CO2e_fr_1dp q);
  bVOC_int_range : uint16 (bVOC_int q);
  bVOC_fr_range : fr_2dp (bVOC_fr_2dp q);
  AQI_accuracy_range : uint8 (AQI_accuracy q)
}.

Record light_in_range (l : LightData_t) : Prop := {
  illum_int_range : uint16 (illum_lux_int l);
  illum_fr_range : fr_2dp (illum_lux_fr_2dp l);
  white_range : uint16 (white l)
}.

Record sound_in_range (s : SoundData_t) : Prop := {
  SPL_int_range : uint8 (SPL_dBA_int s);
  SPL_fr_range : fr_1dp (SPL_dBA_fr_1dp s);
  bands_int_length : List.length (SPL_bands_dB_int s) = Z.to_nat SOUND_FREQ_BANDS;
  bands_int_range : Forall uint8 (SPL_bands_dB_int s);
  bands_fr_length : List.length (SPL_bands_dB_fr_1dp s) = Z.to_nat SOUND_FREQ_BANDS;
  bands_fr_range : Forall fr_1dp (SPL_bands_dB_fr_1dp s);
  peak_int_range : uint16 (peak_amp_mPa_int s);
  peak_fr_range : fr_2dp (peak_amp_mPa_fr_2dp s)
}.

Record particle_in_range (p : ParticleData_t) : Prop := {
  duty_int_range : uint8 (duty_cycle_pc_int p);
  duty_fr_range : fr_2dp (duty_cycle_pc_fr_2dp p);
  conc_int_range : uint16 (concentration_int p);
  conc_fr_range : fr_2dp (concentration_fr_2dp p)
}.

Record records_in_range (g : Globals) : Prop := {
  refresh_range : uint16 (refreshPeriodSeconds g);
  air_range : air_in_range (airData g);
  air_quality_range : air_quality_in_range (airQualityData g);
  light_range : light_in_range (lightData g);
  sound_range : sound_in_range (soundData g);
  particle_range : particle_in_range (particleData g)
}.

End Ranges.

(** The values [assembleWebPage] reads. *)
Definition same_inputs (g1 g2 : Globals) : Prop :=
  refreshPeriodSeconds g1 = refreshPeriodSeconds g2 /\
  airData g1 = airData g2 /\
  airQualityData g1 = airQualityData g2 /\
  lightData g1 = lightData g2 /\
  particleData g1 = particleData g2 /\
  soundData g1 = soundData g2.

Definition with_buffers (l p : string) (g : Globals) : Globals :=
  set_lineBuffer l (set_pageBuffer p g).

(** [emits s g t]: started in the state [g] with any contents of the two
    buffers, the statement [s] appends [t] to [pageBuffer] and changes
    nothing but the buffers, as long as the result fits. *)
Definition emits (s : stmt) (g : Globals) (t : string) : Prop :=
  forall l p, (strlen (p ++ t) < pageBuffer_size)%nat ->
    exists l', s (with_buffers l p g) = Some (with_buffers l' (p ++ t) g).

(** ** Relating two runs of the page assembler *)

Definition same_page (g1 g2 : Globals) : Prop :=
  same_inputs g1 g2 /\ pageBuffer g1 = pageBuffer g2.

Definition same_text (g1 g2 : Globals) : Prop :=
  same_page g1 g2 /\ lineBuffer g1 = lineBuffer g2.

Definition agree (R : Globals -> Globals -> Prop) (o1 o2 : option Globals) : Prop :=
  match o1, o2 with
  | Some g1, Some g2 => R g1 g2
  | None, None => True
  | _, _ => False
  end.

(** [respects R R' s]: from two states related by [R] the statement [s]
    fails in both or leads to two states related by [R']. *)
Definition respects (R R' : Globals -> Globals -> Prop) (s : stmt) : Prop :=
  forall g1 g2, R g1 g2 -> agree R' (s g1) (s g2).

Definition reads_inputs (f : Globals -> string) : Prop :=
  forall g1 g2, same_inputs g1 g2 -> f g1 = f g2.

(** [keeps_inputs s]: the statement [s] changes neither the records nor
    the refresh period. *)
Definition keeps_inputs (s : stmt) : Prop :=
  forall g g', s g = Some g' -> same_inputs g g'.

Local Open Scope list_scope.

(** ** The devices

    The sketch talks to the serial port, the WiFi module, one client at a
    time and the sensor board.  What it does to them is recorded as a
    list of events, oldest first; what they answer is an input of the
    model. *)

Inductive Event : Type :=
| Serial_print (s : string)
| Serial_println (s : string)
| Serial_println_IP (ip : IPAddress)
| Yield
| Delay (ms : Z)
| Server_begin
| Client_print (s : string)
| Client_stop
| SensorHardwareSetup (i2c_address : Z)
| TransmitI2C (dev_addr commandRegister : Z) (data : list Z)
| ReceiveI2C (dev_addr commandRegister data_length : Z)
| CreateWiFiAP (ssid pass : string) (ip : IPAddress)
| ConnectToWiFi (ssid pass : string)
| WiFi_status
| WiFi_localIP.

(** The declarations of [WiFi_functions.h] and of the WiFi library used by
    the sketch, and the register map of the sensor board. *)
Class WiFi_functions_h := {
  WL_CONNECTED : Z;
  interpret_WiFi_status : Z -> string
}.

Class Sensor_registers := {
  I2C_ADDRESS : Z;
  PARTICLE_SENSOR_SELECT_REG : Z;
  CYCLE_TIME_PERIOD_REG : Z;
  CYCLE_MODE_CMD : Z;
  AIR_DATA_READ : Z;
  AIR_DATA_BYTES : Z;
  AIR_QUALITY_DATA_READ : Z;
  AIR_QUALITY_DATA_BYTES : Z;
  LIGHT_DATA_READ : Z;
  LIGHT_DATA_BYTES : Z;
  SOUND_DATA_READ : Z;
  SOUND_DATA_BYTES : Z;
  PARTICLE_DATA_READ : Z;
  PARTICLE_DATA_BYTES : Z
}.

Definition SSID : string := "PUT WIFI NETWORK NAME HERE IN QUOTES".
Definition password : string := "PUT WIFI PASSWORD HERE IN QUOTES".

(** One round of the waiting loop, as the outside world decides it: the
    client that [server.available()] returns, if any, given by the bytes
    it sends before it hangs up, and whether the interrupt routine of the
    sensor sets [ready_assertion_event] during the round. *)
Record Round := {
  pending_client : option (list ascii);
  ready_asserted : bool
}.

(** What the devices answer during start-up. *)
Record Startup := {
  createWiFiAP_ok : bool;
  serial_wait : nat;
  startup_localIP : IPAddress
}.

(** What the devices answer during one acquisition: the contents each
    [ReceiveI2C] leaves in its struct, whether the interrupt routine runs
    during the readout, the answer of [WiFi.status()], the address after
    a reconnection and whether the interrupt routine runs during it. *)
Record Acquisition := {
  received_air : AirData_t -> AirData_t;
  received_air_quality : AirQualityData_t -> AirQualityData_t;
  received_light : LightData_t -> LightData_t;
  received_sound : SoundData_t -> SoundData_t;
  received_particle : ParticleData_t -> ParticleData_t;
  ready_during_readout : bool;
  wifiStatus : Z;
  reconnect_localIP : IPAddress;
  ready_during_reconnect : bool
}.

(** ** The client dispatcher *)

(** The [while (client.connected())] loop over the bytes the client sends
    before it hangs up; [true] when the page has been sent. *)
Fixpoint read_request (inbound : list ascii) (blankLine : bool) : bool :=
  match inbound with
  | [] => false
  | c :: inbound' =>
      if Ascii.eqb c LF then
        if blankLine then true else read_request inbound' true
      else if negb (Ascii.eqb c CR) then read_request inbound' false
      else read_request inbound' blankLine
  end.

Definition handleClientRequests (client : option (list ascii)) (g : Globals) : list Event :=
  match client with
  | Some inbound =>
      (if read_request inbound false then [Client_print (pageBuffer g)] else []) ++
      [Delay 10; Client_stop]
  | None => []
  end.

(** ** Start-up and the main loop *)

Inductive Outcome : Type :=
| Returned (g : Globals) (events : list Event)
| Blocked (g : Globals) (events : list Event)
| Overrun (events : list Event).

Section Scheduler.

Context {hdr : Metriful_sensor_h} {wifi : WiFi_functions_h} {regs : Sensor_registers}.

(** The values of the globals when [setup] starts; [cycle_period] and
    [createWifiNetwork] are the user's settings. *)
Definition initial_globals (cycle_period : Z) (createWifiNetwork : bool) : Globals :=
  {| cycle_period := cycle_period;
     createWifiNetwork := createWifiNetwork;
     theIP := {| ip0 := 192; ip1 := 168; ip2 := 12; ip3 := 20 |};
     refreshPeriodSeconds := 0;
     airData := {| T_C_int_with_sign := 0; T_C_fr_1dp := 0; P_Pa := 0;
                   H_pc_int := 0; H_pc_fr_1dp := 0; G_ohm := 0 |};
     airQualityData := {| AQI_int := 0; AQI_fr_1dp := 0; CO2e_int := 0;
                          CO2e_fr_1dp := 0; bVOC_int := 0; bVOC_fr_2dp := 0;
                          AQI_accuracy := 0 |};
     lightData := {| illum_lux_int := 0; illum_lux_fr_2dp := 0; white := 0 |};
     particleData := {| duty_cycle_pc_int := 0; duty_cycle_pc_fr_2dp := 0;
                        concentration_int := 0; concentration_fr_2dp := 0 |};
     soundData := {| SPL_dBA_int := 0; SPL_dBA_fr_1dp := 0;
                     SPL_bands_dB_int := repeat 0 (Z.to_nat SOUND_FREQ_BANDS);
                     SPL_bands_dB_fr_1dp := repeat 0 (Z.to_nat SOUND_FREQ_BANDS);
                     peak_amp_mPa_int := 0; peak_amp_mPa_fr_2dp := 0 |};
     lineBuffer := "";
     pageBuffer := "";
     ready_assertion_event := false |}.

(** [setup()].  When the access point cannot be created the sketch stays in
    [while (true) yield()] and never returns: [Blocked]. *)
Definition setup (dev : Startup) (g : Globals) : Outcome :=
  let ev0 := [SensorHardwareSetup I2C_ADDRESS] in
  let network :=
    if createWifiNetwork g then
      if negb (createWiFiAP_ok dev) then
        inl (ev0 ++ [CreateWiFiAP SSID password (theIP g);
                     Serial_println "Failed to create access point."])
      else inr (g, ev0 ++ [CreateWiFiAP SSID password (theIP g)])
    else
      inr (set_theIP (startup_localIP dev) g,
           ev0 ++ repeat Yield (serial_wait dev) ++
           [ConnectToWiFi SSID password; WiFi_localIP])
  in
  match network with
  | inl ev => Blocked g ev
  | inr (g, ev) =>
      let ev := ev ++ [Serial_print "View your page at http://";
                       Serial_println_IP (theIP g); Server_begin] in
      let g :=
        if cycle_period g =? CYCLE_PERIOD_3_S then set_refreshPeriodSeconds 3 g
        else if cycle_period g =? CYCLE_PERIOD_100_S then set_refreshPeriodSeconds 30 g
        else set_refreshPeriodSeconds 50 g in
      let particleSensor := PARTICLE_SENSOR in
      let ev := ev ++ [TransmitI2C I2C_ADDRESS PARTICLE_SENSOR_SELECT_REG [particleSensor];
                       TransmitI2C I2C_ADDRESS CYCLE_TIME_PERIOD_REG [cycle_period g]] in
      let g := set_ready_assertion_event false g in
      Returned g (ev ++ [TransmitI2C I2C_ADDRESS CYCLE_MODE_CMD []])
  end.

(** [while (!ready_assertion_event) { handleClientRequests(); yield(); }]
    over the rounds the outside world provides.  The result holds the
    rounds that are left when the loop is left; [None] when the rounds are
    used up with the flag still clear. *)
Fixpoint wait_for_ready (rounds : list Round) (g : Globals) (events : list Event)
  : Globals * list Event * option (list Round) :=
  if ready_assertion_event g then (g, events, Some rounds)
  else
    match rounds with
    | [] => (g, events, None)
    | r :: rounds' =>
        wait_for_ready rounds'
          (interrupt (ready_asserted r) g)
          (events ++ handleClientRequests (pending_client r) g ++ [Yield])
    end.

(** The four or five [ReceiveI2C] calls. *)
Definition read_data (dev : Acquisition) (g : Globals) : Globals * list Event :=
  let a := received_air dev (airData g) in
  let q := received_air_quality dev (airQualityData g) in
  let l := received_light dev (lightData g) in
  let s := received_sound dev (soundData g) in
  let ev := [ReceiveI2C I2C_ADDRESS AIR_DATA_READ AIR_DATA_BYTES;
             ReceiveI2C I2C_ADDRESS AIR_QUALITY_DATA_READ AIR_QUALITY_DATA_BYTES;
             ReceiveI2C I2C_ADDRESS LIGHT_DATA_READ LIGHT_DATA_BYTES;
             ReceiveI2C I2C_ADDRESS SOUND_DATA_READ SOUND_DATA_BYTES] in
  if negb (PARTICLE_SENSOR =? PARTICLE_SENSOR_OFF) then
    (set_data a q l s (received_particle dev (particleData g)) g,
     ev ++ [ReceiveI2C I2C_ADDRESS PARTICLE_DATA_READ PARTICLE_DATA_BYTES])
  else (set_data a q l s (particleData g) g, ev).

(** The check of the WiFi connection that ends [loop()]. *)
Definition check_WiFi (dev : Acquisition) (g : Globals) : Globals * list Event :=
  if negb (createWifiNetwork g) then
    let wifiStatus := wifiStatus dev in
    if negb (wifiStatus =? WL_CONNECTED) then
      let ev := [WiFi_status;
                 Serial_print "Wifi status: ";
                 Serial_println (interpret_WiFi_status wifiStatus);
                 ConnectToWiFi SSID password] in
      let g := interrupt (ready_during_reconnect dev) g in
      let g := set_theIP (reconnect_localIP dev) g in
      let ev := ev ++ [WiFi_localIP;
                       Serial_print "View your page at http://";
                       Serial_println_IP (theIP g)] in
      (set_ready_assertion_event false g, ev)
    else (g, [WiFi_status])
  else (g, []).

(** What [loop()] does once the flag has been seen: clear it, read the
    data, assemble the page, check the connection. *)
Definition acquire (dev : Acquisition) (g : Globals) (events : list Event) : Outcome :=
  let g := set_ready_assertion_event false g in
  let '(g, ev) := read_data dev g in
  let g := interrupt (ready_during_readout dev) g in
  match assembleWebPage g with
  | None => Overrun (events ++ ev)
  | Some g =>
      let '(g, ev') := check_WiFi dev g in
      Returned g (events ++ ev ++ ev')
  end.

(** One call of [loop()]. *)
Definition loop (rounds : list Round) (dev : Acquisition) (g : Globals) : Outcome :=
  match wait_for_ready rounds g [] with
  | (g, events, None) => Blocked g events
  | (g, events, Some _) => acquire dev g events
  end.

(** Modelled from the spec: the time between two data releases, in
    seconds, that each setting of [cycle_period] stands for (every 3, 100
    or 300 seconds). *)
Definition cycle_seconds (cycle_period : Z) : Z :=
  if cycle_period =? CYCLE_PERIOD_3_S then 3
  else if cycle_period =? CYCLE_PERIOD_100_S then 100
  else 300.

End Scheduler.

(** ** Requests and events *)

(** An empty line in the bytes a client sends: two line feeds with nothing
    but carriage returns between them. *)
Definition has_blank_line (inbound : list ascii) : Prop :=
  exists before returns after,
    inbound = before ++ LF :: returns ++ LF :: after /\ Forall (eq CR) returns.

(** A line feed after carriage returns only: what completes an empty line
    when the previous byte that counted was a line feed. *)
Definition ends_blank_line (inbound : list ascii) : Prop :=
  exists returns after, inbound = returns ++ LF :: after /\ Forall (eq CR) returns.

(** The events of the dispatcher and of the waiting loop around it, when
    the page buffer holds [page]. *)
Definition waiting_event (page : string) (e : Event) : Prop :=
  e = Yield \/ e = Delay 10 \/ e = Client_stop \/ e = Client_print page.

(** The events that touch the WiFi link. *)
Definition link_event (e : Event) : Prop :=
  e = WiFi_status \/ e = WiFi_localIP \/ exists ssid pass, e = ConnectToWiFi ssid pass.

(** ** One set of declarations

    Values for the parameters, used to run the sketch on examples: the
    register map and the tables of the MS430 library, with plain ASCII
    stand-ins for its unit symbols. *)

Definition MS430 (particle_sensor : Z) : Metriful_sensor_h := {|
  CYCLE_PERIOD_3_S := 0;
  CYCLE_PERIOD_100_S := 1;
  CYCLE_PERIOD_300_S := 2;
  PARTICLE_SENSOR := particle_sensor;
  PARTICLE_SENSOR_OFF := 0;
  PARTICLE_SENSOR_PPD42 := 1;
  PARTICLE_SENSOR_SDS011 := 2;
  SOUND_FREQ_BANDS := 6;
  sound_band_mids_Hz := [125; 250; 500; 1000; 2000; 4000];
  OHM_SYMBOL := "oh";
  SUBSCRIPT_2 := "2";
  SDS011_UNIT_SYMBOL := "ug/m3";
  getTemperature := fun a =>
    {| T_unit := "C";
       T_intPart := T_C_int_with_sign a mod 128;
       T_fractionalPart := T_C_fr_1dp a mod 10;
       isPositive := T_C_int_with_sign a mod 256 <? 128 |};
  interpret_AQI_accuracy := fun _ => "Not yet valid, self-calibration incomplete";
  interpret_AQI_value := fun aqi =>
    if aqi <? 50 then "Good" else if aqi <? 100 then "Acceptable"
    else if aqi <? 150 then "Substandard" else if aqi <? 200 then "Poor"
    else if aqi <? 300 then "Bad" else "Very bad"
|}.

(** Declarations at the limits of [header_ok]: six bands with the largest
    16-bit midpoint, the SDS011 selected, and every string as long as
    allowed. *)
Definition widest_header : Metriful_sensor_h := {|
  CYCLE_PERIOD_3_S := 0;
  CYCLE_PERIOD_100_S := 1;
  CYCLE_PERIOD_300_S := 2;
  PARTICLE_SENSOR := 2;
  PARTICLE_SENSOR_OFF := 0;
  PARTICLE_SENSOR_PPD42 := 1;
  PARTICLE_SENSOR_SDS011 := 2;
  SOUND_FREQ_BANDS := 6;
  sound_band_mids_Hz := [65535; 65535; 65535; 65535; 65535; 65535];
  OHM_SYMBOL := "oh";
  SUBSCRIPT_2 := "sub";
  SDS011_UNIT_SYMBOL := "ug/m^3";
  getTemperature := fun a =>
    {| T_unit := "dgC";
       T_intPart := T_C_int_with_sign a mod 128;
       T_fractionalPart := T_C_fr_1dp a mod 10;
       isPositive := T_C_int_with_sign a mod 256 <? 128 |};
  interpret_AQI_accuracy := fun _ => "Not yet valid, self-calibration incomplete";
  interpret_AQI_value := fun _ => "Substandard"
|}.

Definition WiFiNINA : WiFi_functions_h := {|
  WL_CONNECTED := 3;
  interpret_WiFi_status := fun status =>
    if status =? 3 then "Connected" else "Disconnected"
|}.

Definition MS430_registers : Sensor_registers := {|
  I2C_ADDRESS := 113;
  PARTICLE_SENSOR_SELECT_REG := 7;
  CYCLE_TIME_PERIOD_REG := 137;
  CYCLE_MODE_CMD := 228;
  AIR_DATA_READ := 16;
  AIR_DATA_BYTES := 12;
  AIR_QUALITY_DATA_READ := 17;
  AIR_QUALITY_DATA_BYTES := 10;
  LIGHT_DATA_READ := 18;
  LIGHT_DATA_BYTES := 5;
  SOUND_DATA_READ := 19;
  SOUND_DATA_BYTES := 18;
  PARTICLE_DATA_READ := 20;
  PARTICLE_DATA_BYTES := 6
|}.

(** ** Inputs for the examples *)

(** Globals holding the largest value of every field. *)
Definition largest_values (accuracy : Z) : Globals :=
  {| cycle_period := 0;
     createWifiNetwork := false;
     theIP := {| ip0 := 192; ip1 := 168; ip2 := 12; ip3 := 20 |};
     refreshPeriodSeconds := 65535;
     airData := {| T_C_int_with_sign := 255; T_C_fr_1dp := 9; P_Pa := 4294967295;
                   H_pc_int := 255; H_pc_fr_1dp := 9; G_ohm := 4294967295 |};
     airQualityData := {| AQI_int := 65535; AQI_fr_1dp := 9; CO2e_int := 65535;
                          CO2e_fr_1dp := 9; bVOC_int := 65535; bVOC_fr_2dp := 99;
                          AQI_accuracy := accuracy |};
     lightData := {| illum_lux_int := 65535; illum_lux_fr_2dp := 99; white := 65535 |};
     particleData := {| duty_cycle_pc_int := 255; duty_cycle_pc_fr_2dp := 99;
                        concentration_int := 65535; concentration_fr_2dp := 99 |};
     soundData := {| SPL_dBA_int := 255; SPL_dBA_fr_1dp := 9;
                     SPL_bands_dB_int := [255; 255; 255; 255; 255; 255];
                     SPL_bands_dB_fr_1dp := [9; 9; 9; 9; 9; 9];
                     peak_amp_mPa_int := 65535; peak_amp_mPa_fr_2dp := 99 |};
     lineBuffer := "";
     pageBuffer := "";
     ready_assertion_event := false |}.

(** The same, with three digits in the fractional parts that announce one
    or two. *)
Definition three_digit_fractions : Globals :=
  {| cycle_period := 0;
     createWifiNetwork := false;
     theIP := {| ip0 := 192; ip1 := 168; ip2 := 12; ip3 := 20 |};
     refreshPeriodSeconds := 65535;
     airData := {| T_C_int_with_sign := 255; T_C_fr_1dp := 9; P_Pa := 4294967295;
                   H_pc_int := 255; H_pc_fr_1dp := 255; G_ohm := 4294967295 |};
     airQualityData := {| AQI_int := 65535; AQI_fr_1dp := 255; CO2e_int := 65535;
                          CO2e_fr_1dp := 255; bVOC_int := 65535; bVOC_fr_2dp := 255;
                          AQI_accuracy := 1 |};
     lightData := {| illum_lux_int := 65535; illum_lux_fr_2dp := 255; white := 65535 |};
     particleData := {| duty_cycle_pc_int := 255; duty_cycle_pc_fr_2dp := 255;
                        concentration_int := 65535; concentration_fr_2dp := 255 |};
     soundData := {| SPL_dBA_int := 255; SPL_dBA_fr_1dp := 255;
                     SPL_bands_dB_int := [255; 255; 255; 255; 255; 255];
                     SPL_bands_dB_fr_1dp := [255; 255; 255; 255; 255; 255];
                     peak_amp_mPa_int := 65535; peak_amp_mPa_fr_2dp := 255 |};
     lineBuffer := "";
     pageBuffer := "";
     ready_assertion_event := false |}.

Definition startup_example : Startup :=
  {| createWiFiAP_ok := true; serial_wait := 2;
     startup_localIP := {| ip0 := 192; ip1 := 168; ip2 := 1; ip3 := 7 |} |}.

(** An acquisition during which the link is found down: the sensor
    delivers the largest values, and the interrupt routine runs during
    the reconnection. *)
Definition acquisition_example (status : Z) : Acquisition :=
  {| received_air := fun _ => airData (largest_values 1);
     received_air_quality := fun _ => airQualityData (largest_values 1);
     received_light := fun _ => lightData (largest_values 1);
     received_sound := fun _ => soundData (largest_values 1);
     received_particle := fun _ => particleData (largest_values 1);
     ready_during_readout := false;
     wifiStatus := status;
     reconnect_localIP := {| ip0 := 192; ip1 := 168; ip2 := 1; ip3 := 8 |};
     ready_during_reconnect := true |}.

(** A request closed by an empty line, and the same request cut after its
    first line. *)
Definition complete_request : list ascii :=
  list_ascii_of_string ("GET / HTTP/1.1" ++ CRLF ++ CRLF)%string.

Definition unfinished_request : list ascii :=
  list_ascii_of_string ("GET / HTTP/1.1" ++ CRLF)%string.

(** A first wait of two rounds: a client is served, then the sensor
    signals that data are ready. *)
Definition rounds_example : list Round :=
  [ {| pending_client := Some complete_request; ready_asserted := false |};
    {| pending_client := None; ready_asserted := true |} ].

Definition started_example : Globals :=
  set_ready_assertion_event false
    (set_refreshPeriodSeconds 3
       (set_theIP {| ip0 := 192; ip1 := 168; ip2 := 1; ip3 := 7 |}
          (initial_globals (hdr := MS430 1) 0 false))).

(** ** Further notions used by the properties *)

(** The events of one round of the waiting loop: the dispatcher, then
    [yield()]. *)
Definition round_events (g : Globals) (r : Round) : list Event :=
  handleClientRequests (pending_client r) g ++ [Yield].

(** The bytes of a request that count for the detection of the empty
    line: everything but carriage returns. *)
Definition without_CR (inbound : list ascii) : list ascii :=
  filter (fun c => negb (Ascii.eqb c CR)) inbound.

(** The declarations of [MS430] with the SDS011 selected and another unit
    symbol for it. *)
Definition with_SDS011_symbol (symbol : string) : Metriful_sensor_h := {|
  CYCLE_PERIOD_3_S := 0;
  CYCLE_PERIOD_100_S := 1;
  CYCLE_PERIOD_300_S := 2;
  PARTICLE_SENSOR := 2;
  PARTICLE_SENSOR_OFF := 0;
  PARTICLE_SENSOR_PPD42 := 1;
  PARTICLE_SENSOR_SDS011 := 2;
  SOUND_FREQ_BANDS := 6;
  sound_band_mids_Hz := [125; 250; 500; 1000; 2000; 4000];
  OHM_SYMBOL := "oh";
  SUBSCRIPT_2 := "2";
  SDS011_UNIT_SYMBOL := symbol;
  getTemperature := getTemperature (Metriful_sensor_h := MS430 2);
  interpret_AQI_accuracy := interpret_AQI_accuracy (Metriful_sensor_h := MS430 2);
  interpret_AQI_value := interpret_AQI_value (Metriful_sensor_h := MS430 2)
|}.

(** The unit symbols spelled in UTF-8, the bytes a compiler writes for the
    universal character names u00B0, u03A9, u2082, u00B5 and u00B3: the
    degree sign before the C, the capital omega, the subscript two, and
    the micro sign and the superscript three of the SDS011 unit. *)
Definition utf8 (bytes : list Z) : string :=
  string_of_list_ascii (map (fun b => ascii_of_nat (Z.to_nat b)) bytes).

Definition CELSIUS_UTF8 : string := utf8 [194; 176; 67].
Definition OHM_UTF8 : string := utf8 [206; 169].
Definition SUBSCRIPT_2_UTF8 : string := utf8 [226; 130; 130].
Definition SDS011_UNIT_UTF8 : string := utf8 [194; 181; 103; 47; 109; 194; 179].

(** The declarations of [MS430] with these symbols in place of the ASCII
    stand-ins. *)
Definition MS430_UTF8 (particle_sensor : Z) : Metriful_sensor_h := {|
  CYCLE_PERIOD_3_S := 0;
  CYCLE_PERIOD_100_S := 1;
  CYCLE_PERIOD_300_S := 2;
  PARTICLE_SENSOR := particle_sensor;
  PARTICLE_SENSOR_OFF := 0;
  PARTICLE_SENSOR_PPD42 := 1;
  PARTICLE_SENSOR_SDS011 := 2;
  SOUND_FREQ_BANDS := 6;
  sound_band_mids_Hz := [125; 250; 500; 1000; 2000; 4000];
  OHM_SYMBOL := OHM_UTF8;
  SUBSCRIPT_2 := SUBSCRIPT_2_UTF8;
  SDS011_UNIT_SYMBOL := SDS011_UNIT_UTF8;
  getTemperature := fun a =>
    {| T_unit := CELSIUS_UTF8;
       T_intPart := T_C_int_with_sign a mod 128;
       T_fractionalPart := T_C_fr_1dp a mod 10;
       isPositive := T_C_int_with_sign a mod 256 <? 128 |};
  interpret_AQI_accuracy := interpret_AQI_accuracy (Metriful_sensor_h := MS430 0);
  interpret_AQI_value := interpret_AQI_value (Metriful_sensor_h := MS430 0)
|}.

(** An acquisition with the link up, during which the sensor signals the
    next data before the readout is over. *)
Definition late_signal_example : Acquisition :=
  {| received_air := fun _ => airData (largest_values 1);
     received_air_quality := fun _ => airQualityData (largest_values 1);
     received_light := fun _ => lightData (largest_values 1);
     received_sound := fun _ => soundData (largest_values 1);
     received_particle := fun _ => particleData (largest_values 1);
     ready_during_readout := true;
     wifiStatus := 3;
     reconnect_localIP := {| ip0 := 192; ip1 := 168; ip2 := 1; ip3 := 8 |};
     ready_during_reconnect := false |}.

(** [only_buffers s]: the statement [s] changes nothing but the two
    buffers. *)
Definition only_buffers (s : stmt) : Prop :=
  forall g g', s g = Some g' -> g' = with_buffers (lineBuffer g') (pageBuffer g') g.

Local Open Scope string_scope.
Local Open Scope Z_scope.

(** * Properties *)

(** ** Strings *)

Lemma strlen_append (s t : string) : strlen (s ++ t) = (strlen s + strlen t)%nat.
Proof. induction s as [|c s IH]; simpl; [reflexivity | now rewrite IH]. Qed.

Lemma append_assoc (s t u : string) : (s ++ t) ++ u = s ++ t ++ u.
Proof. induction s as [|c s IH]; simpl; [reflexivity | now rewrite IH]. Qed.

Lemma append_empty_r (s : string) : s ++ "" = s.
Proof. induction s as [|c s IH]; simpl; [reflexivity | now rewrite IH]. Qed.

Lemma fits_spec (s : string) (size : nat) : fits s size = true <-> (strlen s < size)%nat.
Proof. unfold fits. apply Nat.ltb_lt. Qed.

(** ** Number of digits printed by [%u] *)

Lemma decimal_length (fuel : nat) :
  forall (k : nat) (v : Z) (acc : string),
    (1 <= k <= fuel)%nat -> 0 <= v < 10 ^ Z.of_nat k ->
    (strlen acc < strlen (decimal fuel v acc) <= k + strlen acc)%nat.
Proof.
  induction fuel as [|fuel IH]; intros k v acc Hk Hv; [lia|].
  cbn [decimal]. destruct (Z.ltb_spec v 10) as [Hlt|Hge].
  - cbn [String.length]. lia.
  - destruct k as [|[|k]]; [lia | cbn in Hv; lia |].
    assert (Hq : 0 <= v / 10 < 10 ^ Z.of_nat (S k)).
    { replace (Z.of_nat (S (S k))) with (Z.of_nat (S k) + 1) in Hv by lia.
      rewrite Z.pow_add_r, Z.pow_1_r in Hv by lia.
      split; [apply Z.div_pos; lia | apply Z.div_lt_upper_bound; lia]. }
    specialize (IH (S k) (v / 10) (String (digit_char (v mod 10)) acc)).
    cbn [String.length] in IH. lia.
Qed.

Lemma fmt_u_length (k : nat) (v : Z) :
  (1 <= k <= 9)%nat -> 0 <= v < 10 ^ Z.of_nat k ->
  (1 <= strlen (fmt_u v) <= k)%nat.
Proof.
  intros Hk Hv. unfold fmt_u.
  assert (Hbig : 10 ^ Z.of_nat k <= 10 ^ 9) by (apply Z.pow_le_mono_r; lia).
  change (10 ^ 9) with 1000000000 in Hbig.
  rewrite Z.mod_small by (change (2 ^ 32) with 4294967296; lia).
  pose proof (decimal_length 10 k v "" ltac:(lia) Hv) as H.
  cbn [String.length] in H. lia.
Qed.

Lemma fmt_u_length_max (v : Z) : (1 <= strlen (fmt_u v) <= 10)%nat.
Proof.
  unfold fmt_u.
  pose proof (Z.mod_pos_bound v (2 ^ 32) ltac:(reflexivity)) as Hm.
  change (2 ^ 32) with 4294967296 in *.
  pose proof (decimal_length 10 10 (v mod 4294967296) "" ltac:(lia)) as H.
  change (10 ^ Z.of_nat 10) with 10000000000 in H.
  cbn [String.length] in H. lia.
Qed.

Lemma fmt_u_uint8 (v : Z) : uint8 v -> (strlen (fmt_u v) <= 3)%nat.
Proof.
  unfold uint8. intros H.
  apply (fmt_u_length 3 v); [lia | change (10 ^ Z.of_nat 3) with 1000; lia].
Qed.

Lemma fmt_u_uint16 (v : Z) : uint16 v -> (strlen (fmt_u v) <= 5)%nat.
Proof.
  unfold uint16. intros H.
  apply (fmt_u_length 5 v); [lia | change (10 ^ Z.of_nat 5) with 100000; lia].
Qed.

Lemma fmt_u_fr_1dp (v : Z) : fr_1dp v -> (strlen (fmt_u v) <= 1)%nat.
Proof.
  unfold fr_1dp. intros H.
  apply (fmt_u_length 1 v); [lia | change (10 ^ Z.of_nat 1) with 10; lia].
Qed.

Lemma fmt_02u_fr_2dp (v : Z) : fr_2dp v -> strlen (fmt_02u v) = 2%nat.
Proof.
  unfold fr_2dp, fmt_02u. intros H.
  assert (Hs : (1 <= strlen (fmt_u v) <= 2)%nat)
    by (apply (fmt_u_length 2 v); [lia | change (10 ^ Z.of_nat 2) with 100; lia]).
  destruct (Nat.ltb_spec (strlen (fmt_u v)) 2) as [Hlt|Hge].
  - rewrite strlen_append. cbn [String.length]. lia.
  - lia.
Qed.

(** ** Lengths of the rows *)

Ltac row_length :=
  rewrite ?strlen_append; unfold CRLF; cbn [String.length]; lia.

Lemma http_header_length (r : Z) : uint16 r -> (strlen (http_header r) <= 79)%nat.
Proof.
  intros Hr. pose proof (fmt_u_uint16 r Hr). unfold http_header. row_length.
Qed.

Lemma html_head_length : strlen html_head = 507%nat.
Proof. reflexivity. Qed.

Lemma pressure_row_length (a : AirData_t) : (strlen (pressure_row a) <= 64)%nat.
Proof.
  pose proof (fmt_u_length_max (P_Pa a)). unfold pressure_row. row_length.
Qed.

Lemma humidity_row_length (a : AirData_t) :
  uint8 (H_pc_int a) -> fr_1dp (H_pc_fr_1dp a) -> (strlen (humidity_row a) <= 58)%nat.
Proof.
  intros Hi Hf. pose proof (fmt_u_uint8 _ Hi). pose proof (fmt_u_fr_1dp _ Hf).
  unfold humidity_row. row_length.
Qed.

Lemma aqi_row_length (q : AirQualityData_t) :
  uint16 (AQI_int q) -> fr_1dp (AQI_fr_1dp q) -> (strlen (aqi_row q) <= 75)%nat.
Proof.
  intros Hi Hf. pose proof (fmt_u_uint16 _ Hi). pose proof (fmt_u_fr_1dp _ Hf).
  unfold aqi_row. row_length.
Qed.

Lemma bvoc_row_length (q : AirQualityData_t) :
  uint16 (bVOC_int q) -> fr_2dp (bVOC_fr_2dp q) -> (strlen (bvoc_row q) <= 88)%nat.
Proof.
  intros Hi Hf. pose proof (fmt_u_uint16 _ Hi). pose proof (fmt_02u_fr_2dp _ Hf).
  unfold bvoc_row. row_length.
Qed.

Lemma spl_row_length (s : SoundData_t) :
  uint8 (SPL_dBA_int s) -> fr_1dp (SPL_dBA_fr_1dp s) -> (strlen (spl_row s) <= 83)%nat.
Proof.
  intros Hi Hf. pose proof (fmt_u_uint8 _ Hi). pose proof (fmt_u_fr_1dp _ Hf).
  unfold spl_row. row_length.
Qed.

Lemma band_row_length (i mid level level_fr : Z) :
  0 <= i < 9 -> uint16 mid -> uint8 level -> fr_1dp level_fr ->
  (strlen (band_row i mid level level_fr) <= 82)%nat.
Proof.
  intros Hi Hm Hl Hf.
  assert (Hd : (strlen (fmt_u (i + 1)) <= 1)%nat)
    by (apply fmt_u_fr_1dp; unfold fr_1dp; lia).
  pose proof (fmt_u_uint16 _ Hm). pose proof (fmt_u_uint8 _ Hl).
  pose proof (fmt_u_fr_1dp _ Hf). unfold band_row. row_length.
Qed.

Lemma peak_row_length (s : SoundData_t) :
  uint16 (peak_amp_mPa_int s) -> fr_2dp (peak_amp_mPa_fr_2dp s) ->
  (strlen (peak_row s) <= 87)%nat.
Proof.
  intros Hi Hf. pose proof (fmt_u_uint16 _ Hi). pose proof (fmt_02u_fr_2dp _ Hf).
  unfold peak_row. row_length.
Qed.

Lemma illuminance_row_length (l : LightData_t) :
  uint16 (illum_lux_int l) -> fr_2dp (illum_lux_fr_2dp l) ->
  (strlen (illuminance_row l) <= 66)%nat.
Proof.
  intros Hi Hf. pose proof (fmt_u_uint16 _ Hi). pose proof (fmt_02u_fr_2dp _ Hf).
  unfold illuminance_row. row_length.
Qed.

Lemma white_row_length (l : LightData_t) :
  uint16 (white l) -> (strlen (white_row l) <= 78)%nat.
Proof.
  intros Hi. pose proof (fmt_u_uint16 _ Hi). unfold white_row. row_length.
Qed.

Lemma duty_cycle_row_length (p : ParticleData_t) :
  uint8 (duty_cycle_pc_int p) -> fr_2dp (duty_cycle_pc_fr_2dp p) ->
  (strlen (duty_cycle_row p) <= 68)%nat.
Proof.
  intros Hi Hf. pose proof (fmt_u_uint8 _ Hi). pose proof (fmt_02u_fr_2dp _ Hf).
  unfold duty_cycle_row. row_length.
Qed.

Lemma concentration_row_length (p : ParticleData_t) (unitsBuffer : string) :
  uint16 (concentration_int p) -> fr_2dp (concentration_fr_2dp p) ->
  (strlen (concentration_row p unitsBuffer) <= 86 + strlen unitsBuffer)%nat.
Proof.
  intros Hi Hf. pose proof (fmt_u_uint16 _ Hi). pose proof (fmt_02u_fr_2dp _ Hf).
  unfold concentration_row. row_length.
Qed.

Lemma temperature_row_length (t : Temperature) :
  uint8 (T_intPart t) -> fr_1dp (T_fractionalPart t) ->
  (strlen (temperature_row t) <= 61 + strlen (T_unit t))%nat.
Proof.
  intros Hi Hf. pose proof (fmt_u_uint8 _ Hi). pose proof (fmt_u_fr_1dp _ Hf).
  unfold temperature_row. destruct (isPositive t); row_length.
Qed.

Lemma Forall_nth_default {A : Type} (P : A -> Prop) (l : list A) (d : A) (n : nat) :
  Forall P l -> P d -> P (nth n l d).
Proof.
  intros Hl Hd. revert n.
  induction Hl as [|x l Hx Hl IH]; intros [|n]; simpl; auto.
Qed.

Section RowLengths.

Context {hdr : Metriful_sensor_h}.

Lemma gas_row_length (a : AirData_t) :
  (strlen (gas_row a) <= 87 + strlen OHM_SYMBOL)%nat.
Proof.
  pose proof (fmt_u_length_max (G_ohm a)). unfold gas_row. row_length.
Qed.

Lemma accuracy_message_length (q : AirQualityData_t) :
  strlen (accuracy_message q) = (11 + strlen (interpret_AQI_accuracy (AQI_accuracy q)))%nat.
Proof. unfold accuracy_message. row_length. Qed.

Lemma aqi_summary_row_length (q : AirQualityData_t) :
  strlen (aqi_summary_row q) = (63 + strlen (interpret_AQI_value (AQI_int q)))%nat.
Proof. unfold aqi_summary_row. row_length. Qed.

Lemma co2_row_length (q : AirQualityData_t) :
  uint16 (CO2e_int q) -> fr_1dp (CO2e_fr_1dp q) ->
  (strlen (co2_row q) <= 66 + strlen SUBSCRIPT_2)%nat.
Proof.
  intros Hi Hf. pose proof (fmt_u_uint16 _ Hi). pose proof (fmt_u_fr_1dp _ Hf).
  unfold co2_row. row_length.
Qed.

Lemma band_rows_text_length (s : SoundData_t) (n : nat) :
  Forall uint16 sound_band_mids_Hz ->
  Forall uint8 (SPL_bands_dB_int s) -> Forall fr_1dp (SPL_bands_dB_fr_1dp s) ->
  forall i, 0 <= i -> i + Z.of_nat n <= 9 ->
  (strlen (band_rows_text n i s) <= 82 * n)%nat.
Proof.
  intros Hm Hl Hf. induction n as [|n IH]; intros i Hi Hn; cbn [band_rows_text].
  - cbn. lia.
  - rewrite strlen_append.
    specialize (IH (i + 1) ltac:(lia) ltac:(lia)).
    assert (H16 : uint16 0) by (unfold uint16; lia).
    assert (H8 : uint8 0) by (unfold uint8; lia).
    assert (H1 : fr_1dp 0) by (unfold fr_1dp; lia).
    pose proof (band_row_length i _ _ _ ltac:(lia)
                  (Forall_nth_default uint16 _ 0 (Z.to_nat i) Hm H16)
                  (Forall_nth_default uint8 _ 0 (Z.to_nat i) Hl H8)
                  (Forall_nth_default fr_1dp _ 0 (Z.to_nat i) Hf H1)).
    lia.
Qed.

Lemma units_label_length :
  header_ok -> (strlen units_label <= 6)%nat.
Proof.
  intros Hh. unfold units_label.
  destruct (Z.eqb_spec PARTICLE_SENSOR PARTICLE_SENSOR_PPD42); [cbn; lia|].
  destruct (Z.eqb_spec PARTICLE_SENSOR PARTICLE_SENSOR_SDS011); [|cbn; lia].
  now apply sds011_length.
Qed.

Lemma particle_text_length (p : ParticleData_t) :
  header_ok -> particle_in_range p -> (strlen (particle_text p) <= 199)%nat.
Proof.
  intros Hh [Hdi Hdf Hci Hcf]. unfold particle_text.
  destruct (negb _); [|cbn; lia].
  pose proof (duty_cycle_row_length p Hdi Hdf).
  pose proof (concentration_row_length p units_label Hci Hcf).
  pose proof (units_label_length Hh). row_length.
Qed.

Lemma air_text_length (g : Globals) :
  header_ok -> air_in_range (airData g) -> (strlen (air_text g) <= 302)%nat.
Proof.
  intros Hh [HP Hhi Hhf HG]. unfold air_text.
  destruct (temperature_range Hh (airData g)) as (Hti & Htf & Htu).
  pose proof (temperature_row_length _ Hti Htf).
  pose proof (pressure_row_length (airData g)).
  pose proof (humidity_row_length _ Hhi Hhf).
  pose proof (gas_row_length (airData g)).
  pose proof (ohm_length Hh). row_length.
Qed.

Lemma air_quality_text_length (q : AirQualityData_t) :
  header_ok -> air_quality_in_range q -> (strlen (air_quality_text q) <= 306)%nat.
Proof.
  intros Hh [Hai Haf Hci Hcf Hbi Hbf Hacc]. unfold air_quality_text.
  destruct (AQI_accuracy q =? 0).
  - rewrite accuracy_message_length.
    pose proof (accuracy_length Hh (AQI_accuracy q)). lia.
  - pose proof (aqi_row_length _ Hai Haf).
    pose proof (aqi_summary_row_length q).
    pose proof (aqi_value_length Hh (AQI_int q)).
    pose proof (co2_row_length _ Hci Hcf).
    pose proof (subscript_length Hh).
    pose proof (bvoc_row_length _ Hbi Hbf). row_length.
Qed.

Lemma sound_text_length (s : SoundData_t) :
  header_ok -> sound_in_range s -> (strlen (sound_text s) <= 691)%nat.
Proof.
  intros Hh [Hsi Hsf _ Hbi _ Hbf Hpi Hpf]. unfold sound_text.
  pose proof (bands_count Hh) as Hn.
  pose proof (spl_row_length _ Hsi Hsf).
  pose proof (band_rows_text_length s (Z.to_nat SOUND_FREQ_BANDS)
                (bands_mids Hh) Hbi Hbf 0 ltac:(lia) ltac:(lia)).
  pose proof (peak_row_length _ Hpi Hpf). row_length.
Qed.

Lemma page_text_length (g : Globals) :
  header_ok -> records_in_range g -> (strlen (page_text g) <= 2299)%nat.
Proof.
  intros Hh [Hr Ha Hq Hl Hs Hp].
  pose proof (http_header_length _ Hr).
  pose proof html_head_length.
  pose proof (air_text_length g Hh Ha).
  pose proof (air_quality_text_length _ Hh Hq).
  pose proof (sound_text_length _ Hh Hs).
  pose proof (particle_text_length _ Hh Hp).
  destruct Hl as [Hii Hif Hw].
  pose proof (illuminance_row_length _ Hii Hif).
  pose proof (white_row_length _ Hw).
  unfold page_text, page_body, page_tail. row_length.
Qed.

End RowLengths.

Lemma emits_skip (g : Globals) : emits Some g "".
Proof. intros l p _. exists l. now rewrite append_empty_r. Qed.

Lemma emits_strcat (lit : string) (g : Globals) : emits (strcat_pageBuffer lit) g lit.
Proof.
  intros l p Hlen. exists l. unfold strcat_pageBuffer.
  change (pageBuffer (with_buffers l p g)) with p.
  now rewrite (proj2 (fits_spec _ _) Hlen).
Qed.

Lemma emits_seq (a b : stmt) (g : Globals) (t1 t2 : string) :
  emits a g t1 -> emits b g t2 -> emits (a ;; b)%stmt g (t1 ++ t2).
Proof.
  intros Ha Hb l p Hlen. unfold seq.
  destruct (Ha l p) as [l1 ->].
  - rewrite !strlen_append in *. lia.
  - rewrite <- append_assoc. apply Hb. now rewrite append_assoc.
Qed.

Lemma emits_line (f : Globals -> string) (g : Globals) :
  (strlen (f g) < lineBuffer_size)%nat ->
  (forall l p, f (with_buffers l p g) = f g) ->
  emits (sprintf_lineBuffer f ;; strcat_pageBuffer_lineBuffer)%stmt g (f g).
Proof.
  intros Hfit Hf l p Hlen. unfold seq, sprintf_lineBuffer.
  rewrite Hf, (proj2 (fits_spec _ _) Hfit).
  unfold strcat_pageBuffer_lineBuffer.
  change (lineBuffer (set_lineBuffer (f g) (with_buffers l p g))) with (f g).
  apply (emits_strcat (f g) g (f g) p Hlen).
Qed.

Lemma emits_line_seq (f : Globals -> string) (rest : stmt) (g : Globals) (t : string) :
  (strlen (f g) < lineBuffer_size)%nat ->
  (forall l p, f (with_buffers l p g) = f g) ->
  emits rest g t ->
  emits (sprintf_lineBuffer f ;; strcat_pageBuffer_lineBuffer ;; rest)%stmt g (f g ++ t).
Proof.
  intros Hfit Hf Hrest l p Hlen.
  destruct (emits_seq _ _ g _ _ (emits_line f g Hfit Hf) Hrest l p Hlen) as [l' H].
  exists l'. rewrite <- H. unfold seq.
  destruct (sprintf_lineBuffer f (with_buffers l p g)); reflexivity.
Qed.

Section Running.

Context {hdr : Metriful_sensor_h}.
Hypothesis header : header_ok.

Lemma emits_air_quality_section (g : Globals) :
  air_quality_in_range (airQualityData g) ->
  emits air_quality_section g (air_quality_text (airQualityData g)).
Proof.
  intros [Hai Haf Hci Hcf Hbi Hbf Hacc] l p.
  unfold air_quality_section, air_quality_text.
  change (airQualityData (with_buffers l p g)) with (airQualityData g).
  pose proof (accuracy_length header (AQI_accuracy (airQualityData g))).
  pose proof (aqi_value_length header (AQI_int (airQualityData g))).
  pose proof (subscript_length header).
  pose proof (aqi_row_length _ Hai Haf).
  pose proof (co2_row_length _ Hci Hcf).
  pose proof (bvoc_row_length _ Hbi Hbf).
  destruct (AQI_accuracy (airQualityData g) =? 0).
  - apply (emits_line (fun g => accuracy_message (airQualityData g)));
      [rewrite accuracy_message_length; unfold lineBuffer_size; lia | reflexivity].
  - apply (emits_line_seq (fun g => aqi_row (airQualityData g)));
      [unfold lineBuffer_size; lia | reflexivity |].
    apply (emits_line_seq (fun g => aqi_summary_row (airQualityData g)));
      [rewrite aqi_summary_row_length; unfold lineBuffer_size; lia | reflexivity |].
    apply (emits_line_seq (fun g => co2_row (airQualityData g)));
      [unfold lineBuffer_size; lia | reflexivity |].
    apply (emits_line (fun g => bvoc_row (airQualityData g)));
      [unfold lineBuffer_size; lia | reflexivity].
Qed.

Lemma emits_sound_band_rows (g : Globals) :
  sound_in_range (soundData g) ->
  forall (n : nat) (i : Z) (fuel : nat),
    0 <= i -> i + Z.of_nat n = SOUND_FREQ_BANDS -> (n < fuel)%nat ->
    emits (sound_band_rows fuel i) g (band_rows_text n i (soundData g)).
Proof.
  intros [_ _ Hli Hbi Hlf Hbf _ _].
  pose proof (bands_count header) as Hcount.
  pose proof (bands_table header) as Hlm.
  pose proof (bands_mids header) as Hbm.
  induction n as [|n IH]; intros i [|fuel] Hi Hn Hfuel; try lia;
    intros l p Hlen; cbn [sound_band_rows band_rows_text] in *.
  - destruct (Z.ltb_spec i SOUND_FREQ_BANDS); [lia|].
    exists l. now rewrite append_empty_r.
  - destruct (Z.ltb_spec i SOUND_FREQ_BANDS); [|lia].
    change (soundData (with_buffers l p g)) with (soundData g).
    rewrite (nth_error_nth' sound_band_mids_Hz 0) by lia.
    rewrite (nth_error_nth' (SPL_bands_dB_int (soundData g)) 0) by lia.
    rewrite (nth_error_nth' (SPL_bands_dB_fr_1dp (soundData g)) 0) by lia.
    rewrite Z.mod_small by lia.
    set (mid := nth (Z.to_nat i) sound_band_mids_Hz 0) in *.
    set (level := nth (Z.to_nat i) (SPL_bands_dB_int (soundData g)) 0) in *.
    set (level_fr := nth (Z.to_nat i) (SPL_bands_dB_fr_1dp (soundData g)) 0) in *.
    apply (emits_line_seq (fun _ => band_row i mid level level_fr)
             (sound_band_rows fuel (i + 1)) g); [| reflexivity | | assumption].
    + assert (Hrow : (strlen (band_row i mid level level_fr) <= 82)%nat).
      { apply band_row_length; [lia | | | ]; apply Forall_nth_default;
          try assumption; unfold uint16, uint8, fr_1dp; lia. }
      unfold lineBuffer_size. lia.
    + apply IH; lia.
Qed.

Lemma emits_particle_section (g : Globals) :
  particle_in_range (particleData g) ->
  emits particle_section g (particle_text (particleData g)).
Proof.
  intros [Hdi Hdf Hci Hcf] l p.
  unfold particle_section, particle_text.
  change (particleData (with_buffers l p g)) with (particleData g).
  destruct (negb (PARTICLE_SENSOR =? PARTICLE_SENSOR_OFF)).
  2:{ intros _. exists l. now rewrite append_empty_r. }
  revert l p. change (emits ?s g ?t) with (emits s g t).
  apply emits_seq; [apply emits_strcat|].
  pose proof (duty_cycle_row_length _ Hdi Hdf).
  apply (emits_line_seq (fun g => duty_cycle_row (particleData g)));
    [unfold lineBuffer_size; lia | reflexivity |].
  pose proof (units_label_length header) as Hunits.
  pose proof (concentration_row_length (particleData g) units_label Hci Hcf).
  assert (Hcopy : particle_units = Some units_label).
  { unfold particle_units, units_label, strcpy_unitsBuffer in *.
    destruct (PARTICLE_SENSOR =? PARTICLE_SENSOR_PPD42); [reflexivity|].
    destruct (PARTICLE_SENSOR =? PARTICLE_SENSOR_SDS011); [|reflexivity].
    rewrite (proj2 (fits_spec _ _)); [reflexivity | unfold unitsBuffer_size; lia]. }
  intros l p Hlen. rewrite Hcopy.
  apply (emits_line (fun g => concentration_row (particleData g) units_label));
    [unfold lineBuffer_size; lia | reflexivity | assumption].
Qed.

End Running.

Section Assembling.

Context {hdr : Metriful_sensor_h}.
Hypothesis header : header_ok.

(** Within the ranges, no write of [assembleWebPage] leaves its array, and
    the page left in [pageBuffer] is [page_text]. *)
Lemma assembleWebPage_runs (g : Globals) :
  records_in_range g ->
  exists l, assembleWebPage g = Some (with_buffers l (page_text g) g).
Proof.
  intros Hg. pose proof (page_text_length g header Hg) as Hlen.
  destruct Hg as [Hr [HP Hhi Hhf HG] Hq [Hii Hif Hw] Hs Hp].
  pose proof (http_header_length _ Hr) as Hhdr.
  assert (Hbody : emits
    (strcat_pageBuffer html_head ;;
     strcat_pageBuffer "<p><h2>Air Data</h2><table>" ;;
     sprintf_lineBuffer (fun g => temperature_row (getTemperature (airData g))) ;;
     strcat_pageBuffer_lineBuffer ;;
     sprintf_lineBuffer (fun g => pressure_row (airData g)) ;;
     strcat_pageBuffer_lineBuffer ;;
     sprintf_lineBuffer (fun g => humidity_row (airData g)) ;;
     strcat_pageBuffer_lineBuffer ;;
     sprintf_lineBuffer (fun g => gas_row (airData g)) ;;
     strcat_pageBuffer_lineBuffer ;;
     strcat_pageBuffer "<p><h2>Air Quality Data</h2>" ;;
     air_quality_section ;;
     strcat_pageBuffer "<p><h2>Sound Data</h2><table>" ;;
     sprintf_lineBuffer (fun g => spl_row (soundData g)) ;;
     strcat_pageBuffer_lineBuffer ;;
     sound_band_rows 257 0 ;;
     sprintf_lineBuffer (fun g => peak_row (soundData g)) ;;
     strcat_pageBuffer_lineBuffer ;;
     strcat_pageBuffer "<p><h2>Light Data</h2><table>" ;;
     sprintf_lineBuffer (fun g => illuminance_row (lightData g)) ;;
     strcat_pageBuffer_lineBuffer ;;
     sprintf_lineBuffer (fun g => white_row (lightData g)) ;;
     strcat_pageBuffer_lineBuffer ;;
     particle_section ;;
     strcat_pageBuffer "</body></html>")%stmt g (page_body g)).
  { unfold page_body, air_text, page_tail, sound_text.
    rewrite !append_assoc.
    destruct (temperature_range header (airData g)) as (Hti & Htf & Htu).
    pose proof (temperature_row_length _ Hti Htf).
    pose proof (pressure_row_length (airData g)).
    pose proof (humidity_row_length _ Hhi Hhf).
    pose proof (gas_row_length (airData g)).
    pose proof (ohm_length header).
    pose proof (bands_count header).
    destruct Hs as [Hsi Hsf Hli Hbi Hlf Hbf Hpi Hpf].
    pose proof (spl_row_length _ Hsi Hsf).
    pose proof (peak_row_length _ Hpi Hpf).
    pose proof (illuminance_row_length _ Hii Hif).
    pose proof (white_row_length _ Hw).
    apply emits_seq; [apply emits_strcat|].
    apply emits_seq; [apply emits_strcat|].
    apply (emits_line_seq (fun g => temperature_row (getTemperature (airData g))));
      [unfold lineBuffer_size; lia | reflexivity |].
    apply (emits_line_seq (fun g => pressure_row (airData g)));
      [unfold lineBuffer_size; lia | reflexivity |].
    apply (emits_line_seq (fun g => humidity_row (airData g)));
      [unfold lineBuffer_size; lia | reflexivity |].
    apply (emits_line_seq (fun g => gas_row (airData g)));
      [unfold lineBuffer_size; lia | reflexivity |].
    apply emits_seq; [apply emits_strcat|].
    apply emits_seq; [now apply emits_air_quality_section|].
    apply emits_seq; [apply emits_strcat|].
    apply (emits_line_seq (fun g => spl_row (soundData g)));
      [unfold lineBuffer_size; lia | reflexivity |].
    apply emits_seq.
    { apply emits_sound_band_rows; [assumption | now constructor | lia | lia | lia]. }
    apply (emits_line_seq (fun g => peak_row (soundData g)));
      [unfold lineBuffer_size; lia | reflexivity |].
    apply emits_seq; [apply emits_strcat|].
    apply (emits_line_seq (fun g => illuminance_row (lightData g)));
      [unfold lineBuffer_size; lia | reflexivity |].
    apply (emits_line_seq (fun g => white_row (lightData g)));
      [unfold lineBuffer_size; lia | reflexivity |].
    apply emits_seq; [now apply emits_particle_section|].
    apply emits_strcat. }
  unfold assembleWebPage.
  unfold seq at 1. unfold sprintf_pageBuffer.
  rewrite (proj2 (fits_spec _ _)) by (unfold pageBuffer_size; lia).
  apply (Hbody (lineBuffer g) (http_header (refreshPeriodSeconds g))).
  fold (page_text g). unfold pageBuffer_size. lia.
Qed.

End Assembling.

(** ** The page assembler: size, header and sections *)

Lemma MS430_header_ok (particle_sensor : Z) : @header_ok (MS430 particle_sensor).
Proof.
  constructor; cbn.
  - lia.
  - lia.
  - reflexivity.
  - repeat constructor; unfold uint16; lia.
  - intros a. unfold uint8, fr_1dp.
    pose proof (Z.mod_pos_bound (T_C_int_with_sign a) 128 ltac:(lia)).
    pose proof (Z.mod_pos_bound (T_C_fr_1dp a) 10 ltac:(lia)).
    repeat split; lia.
  - lia.
  - lia.
  - lia.
  - lia.
  - intros a. repeat (destruct (_ <? _); [cbn; lia|]). cbn. lia.
Qed.

Lemma largest_values_in_range (particle_sensor accuracy : Z) :
  uint8 accuracy -> @records_in_range (MS430 particle_sensor) (largest_values accuracy).
Proof.
  intros Hacc.
  repeat constructor; cbn; unfold uint8, uint16, uint32, fr_1dp, fr_2dp in *; lia.
Qed.

(** Within the field ranges (8-, 16- and 32-bit integer parts, one or
    two fractional digits) and with a header whose strings meet
    [header_ok], in particular with a unit label that fits [unitsBuffer],
    every write of [assembleWebPage] stays inside its array and the page,
    with its terminating NUL, occupies at most the 2300 bytes of
    [pageBuffer]. *)
Theorem assembleWebPage_fits_pageBuffer {hdr : Metriful_sensor_h} (g : Globals) :
  header_ok -> records_in_range g ->
  exists g', assembleWebPage g = Some g' /\
             (strlen (pageBuffer g') + 1 <= pageBuffer_size)%nat.
Proof.
  intros Hh Hg.
  destruct (assembleWebPage_runs Hh g Hg) as [l Hrun].
  eexists; split; [exact Hrun|].
  change (pageBuffer (with_buffers l (page_text g) g)) with (page_text g).
  pose proof (page_text_length g Hh Hg). unfold pageBuffer_size. lia.
Qed.

Lemma assembleWebPage_fits_pageBuffer_witness :
  exists g', @assembleWebPage (MS430 2) (largest_values 1) = Some g' /\
             (strlen (pageBuffer g') + 1 <= pageBuffer_size)%nat.
Proof.
  apply (@assembleWebPage_fits_pageBuffer (MS430 2) (largest_values 1)).
  - apply MS430_header_ok.
  - apply largest_values_in_range. unfold uint8. lia.
Defined.

(** The bound is reached: at the limits of [header_ok] the page of the
    largest values fills [pageBuffer] to its last byte. *)
Example largest_page_fills_pageBuffer :
  @header_ok widest_header /\
  @records_in_range widest_header (largest_values 1) /\
  option_map (fun g => (strlen (pageBuffer g) + 1)%nat)
    (@assembleWebPage widest_header (largest_values 1)) = Some pageBuffer_size.
Proof.
  split; [|split; [|reflexivity]].
  - constructor; cbn.
    + lia.
    + lia.
    + reflexivity.
    + repeat constructor; unfold uint16; lia.
    + intros a. unfold uint8, fr_1dp.
      pose proof (Z.mod_pos_bound (T_C_int_with_sign a) 128 ltac:(lia)).
      pose proof (Z.mod_pos_bound (T_C_fr_1dp a) 10 ltac:(lia)).
      repeat split; lia.
    + lia.
    + lia.
    + lia.
    + lia.
    + lia.
  - repeat constructor; cbn; unfold uint8, uint16, uint32, fr_1dp, fr_2dp; lia.
Qed.

(** Outside these ranges the page can outgrow the buffer: with three
    digits in the fractional parts [assembleWebPage] overruns an array. *)
Example three_digit_fractions_overrun :
  @assembleWebPage (MS430 1) three_digit_fractions = None.
Proof. reflexivity. Qed.

(** C2. Between the heading of the Air Quality section and the heading of
    the Sound section the page holds only the calibration message when
    the accuracy is 0, and otherwise the table with the four rows Air
    Quality Index, Air Quality Summary, Estimated CO2 and Equivalent
    Breath VOC, in this order. *)
Theorem air_quality_section_by_accuracy {hdr : Metriful_sensor_h} (g : Globals) :
  header_ok -> records_in_range g ->
  exists g' rest,
    assembleWebPage g = Some g' /\
    page_tail g = "<p><h2>Sound Data</h2><table>" ++ rest /\
    let q := airQualityData g in
    let before :=
      http_header (refreshPeriodSeconds g) ++ html_head ++ air_text g in
    (AQI_accuracy q = 0 ->
     pageBuffer g' =
       before ++ "<p><h2>Air Quality Data</h2>" ++
       ("<a>" ++ interpret_AQI_accuracy 0 ++ "</a></p>") ++
       page_tail g) /\
    (0 < AQI_accuracy q ->
     pageBuffer g' =
       before ++ "<p><h2>Air Quality Data</h2>" ++
       (("<table><tr><td>Air Quality Index</td><td id='v2'>" ++
         fmt_u (AQI_int q) ++ "." ++ fmt_u (AQI_fr_1dp q) ++ "</td><td></td></tr>") ++
        ("<tr><td>Air Quality Summary</td><td id='v2'>" ++
         interpret_AQI_value (AQI_int q) ++ "</td><td></td></tr>") ++
        ("<tr><td>Estimated CO" ++ SUBSCRIPT_2 ++ "</td><td id='v2'>" ++
         fmt_u (CO2e_int q) ++ "." ++ fmt_u (CO2e_fr_1dp q) ++
         "</td><td>ppm</td></tr>") ++
        ("<tr><td>Equivalent Breath VOC</td>" ++ "<td id='v2'>" ++
         fmt_u (bVOC_int q) ++ "." ++ fmt_02u (bVOC_fr_2dp q) ++
         "</td><td>ppm</td></tr></table></p>")) ++
       page_tail g).
Proof.
  intros Hh Hg.
  destruct (assembleWebPage_runs Hh g Hg) as [l Hrun].
  eexists. eexists. split; [exact Hrun|]. split.
  { unfold page_tail, sound_text. rewrite !append_assoc. reflexivity. }
  change (pageBuffer (with_buffers l (page_text g) g)) with (page_text g).
  unfold page_text, page_body, air_quality_text. cbv zeta.
  split; intros Hacc.
  - rewrite Hacc. cbn [Z.eqb]. unfold accuracy_message. rewrite Hacc.
    now rewrite !append_assoc.
  - destruct (Z.eqb_spec (AQI_accuracy (airQualityData g)) 0); [lia|].
    unfold aqi_row, aqi_summary_row, co2_row, bvoc_row.
    now rewrite !append_assoc.
Qed.

Lemma air_quality_section_by_accuracy_witness :
  exists g' rest,
    @assembleWebPage (MS430 0) (largest_values 0) = Some g' /\
    @page_tail (MS430 0) (largest_values 0) = "<p><h2>Sound Data</h2><table>" ++ rest /\
    strlen (pageBuffer g') = 1836%nat.
Proof.
  destruct (@air_quality_section_by_accuracy (MS430 0) (largest_values 0)
              (MS430_header_ok 0)
              (largest_values_in_range 0 0 ltac:(unfold uint8; lia)))
    as (g' & rest & Hrun & Htail & Hzero & _).
  exists g', rest. split; [exact Hrun|]. split; [exact Htail|].
  rewrite (Hzero eq_refl). reflexivity.
Defined.

(** With a header that meets [header_ok], in particular with an SDS011
    unit symbol that fits [unitsBuffer]: when the particulate sensor is
    switched off the page closes right after the Light section; for the
    PPD42 and for the SDS011 the Particulate section follows the Light
    section, with the unit label [ppL] and the SDS011 unit symbol
    respectively. *)
Theorem particulate_section_by_sensor {hdr : Metriful_sensor_h} (g : Globals) :
  header_ok -> records_in_range g ->
  exists g',
    assembleWebPage g = Some g' /\
    let p := particleData g in
    let before :=
      http_header (refreshPeriodSeconds g) ++ html_head ++ air_text g ++
      "<p><h2>Air Quality Data</h2>" ++ air_quality_text (airQualityData g) ++
      sound_text (soundData g) ++
      "<p><h2>Light Data</h2><table>" ++ illuminance_row (lightData g) ++
      white_row (lightData g) in
    let section (unit_label : string) :=
      "<p><h2>Air Particulate Data</h2><table>" ++
      ("<tr><td>Sensor Duty Cycle</td><td id='v5'>" ++
       fmt_u (duty_cycle_pc_int p) ++ "." ++ fmt_02u (duty_cycle_pc_fr_2dp p) ++
       "</td><td>%</td></tr>") ++
      ("<tr><td>Particle Concentration</td>" ++ "<td id='v5'>" ++
       fmt_u (concentration_int p) ++ "." ++ fmt_02u (concentration_fr_2dp p) ++
       "</td><td>" ++ unit_label ++ "</td></tr></table></p>") in
    (PARTICLE_SENSOR = PARTICLE_SENSOR_OFF ->
     pageBuffer g' = before ++ "</body></html>") /\
    (PARTICLE_SENSOR = PARTICLE_SENSOR_PPD42 ->
     pageBuffer g' = before ++ section "ppL" ++ "</body></html>") /\
    (PARTICLE_SENSOR = PARTICLE_SENSOR_SDS011 ->
     pageBuffer g' = before ++ section SDS011_UNIT_SYMBOL ++ "</body></html>").
Proof.
  intros Hh Hg.
  destruct (assembleWebPage_runs Hh g Hg) as [l Hrun].
  eexists. split; [exact Hrun|].
  change (pageBuffer (with_buffers l (page_text g) g)) with (page_text g).
  destruct (particle_codes_distinct Hh) as (Hop & Hos & Hps).
  unfold page_text, page_body, page_tail, particle_text, units_label. cbv zeta.
  repeat split; intros Hsel; rewrite Hsel.
  - rewrite Z.eqb_refl. cbn [negb]. now rewrite !append_assoc.
  - rewrite Z.eqb_refl.
    destruct (Z.eqb_spec PARTICLE_SENSOR_PPD42 PARTICLE_SENSOR_OFF); [congruence|].
    cbn [negb]. unfold duty_cycle_row, concentration_row. now rewrite !append_assoc.
  - rewrite Z.eqb_refl.
    destruct (Z.eqb_spec PARTICLE_SENSOR_SDS011 PARTICLE_SENSOR_OFF); [congruence|].
    destruct (Z.eqb_spec PARTICLE_SENSOR_SDS011 PARTICLE_SENSOR_PPD42); [congruence|].
    cbn [negb]. unfold duty_cycle_row, concentration_row. now rewrite !append_assoc.
Qed.

Lemma particulate_section_by_sensor_witness :
  exists g',
    @assembleWebPage (MS430 2) (largest_values 1) = Some g' /\
    strlen (pageBuffer g') = 2282%nat.
Proof.
  destruct (@particulate_section_by_sensor (MS430 2) (largest_values 1)
              (MS430_header_ok 2)
              (largest_values_in_range 2 1 ltac:(unfold uint8; lia)))
    as (g' & Hrun & _ & _ & Hsds).
  exists g'. split; [exact Hrun|].
  rewrite (Hsds eq_refl). reflexivity.
Defined.

(** C8. The page starts with the status line [HTTP/1.1 200 OK], the
    headers [Content-type: text/html], [Connection: close] and [Refresh:]
    with the refresh period in decimal, each ended by CR LF, then an empty
    line, then the HTML document; with a refresh period of 3 the header
    line reads [Refresh: 3]. *)
Theorem page_starts_with_http_header {hdr : Metriful_sensor_h} (g : Globals) :
  header_ok -> records_in_range g ->
  exists g' body,
    assembleWebPage g = Some g' /\
    pageBuffer g' =
      "HTTP/1.1 200 OK" ++ CRLF ++
      "Content-type: text/html" ++ CRLF ++
      "Connection: close" ++ CRLF ++
      "Refresh: " ++ fmt_u (refreshPeriodSeconds g) ++ CRLF ++
      CRLF ++
      "<!DOCTYPE HTML><html><head>" ++ body /\
    (refreshPeriodSeconds g = 3 ->
     pageBuffer g' =
       "HTTP/1.1 200 OK" ++ CRLF ++
       "Content-type: text/html" ++ CRLF ++
       "Connection: close" ++ CRLF ++
       "Refresh: 3" ++ CRLF ++
       CRLF ++
       "<!DOCTYPE HTML><html><head>" ++ body).
Proof.
  intros Hh Hg.
  destruct (assembleWebPage_runs Hh g Hg) as [l Hrun].
  assert (Hhead : exists rest, html_head = "<!DOCTYPE HTML><html><head>" ++ rest)
    by (eexists; unfold html_head; reflexivity).
  destruct Hhead as [rest Hhead].
  exists (with_buffers l (page_text g) g).
  exists (rest ++ air_text g ++ "<p><h2>Air Quality Data</h2>" ++
          air_quality_text (airQualityData g) ++ page_tail g).
  split; [exact Hrun|].
  change (pageBuffer (with_buffers l (page_text g) g)) with (page_text g).
  unfold page_text, page_body, http_header. rewrite Hhead.
  split; [|intros ->]; rewrite !append_assoc; reflexivity.
Qed.

Lemma page_starts_with_http_header_witness :
  exists g' body,
    @assembleWebPage (MS430 0) (largest_values 0) = Some g' /\
    pageBuffer g' =
      "HTTP/1.1 200 OK" ++ CRLF ++
      "Content-type: text/html" ++ CRLF ++
      "Connection: close" ++ CRLF ++
      "Refresh: 65535" ++ CRLF ++
      CRLF ++
      "<!DOCTYPE HTML><html><head>" ++ body.
Proof.
  destruct (@page_starts_with_http_header (MS430 0) (largest_values 0)
              (MS430_header_ok 0)
              (largest_values_in_range 0 0 ltac:(unfold uint8; lia)))
    as (g' & body & Hrun & Hpage & _).
  exists g', body. split; [exact Hrun | exact Hpage].
Defined.

(** ** The page is a function of the records and the refresh period *)

Lemma respects_seq (R R' R'' : Globals -> Globals -> Prop) (a b : stmt) :
  respects R R' a -> respects R' R'' b -> respects R R'' (a ;; b)%stmt.
Proof.
  intros Ha Hb g1 g2 HR. unfold seq. specialize (Ha g1 g2 HR).
  destruct (a g1), (a g2); cbn in Ha; try contradiction; [now apply Hb | exact I].
Qed.

Lemma respects_sprintf_pageBuffer (f : Globals -> string) :
  reads_inputs f -> respects same_inputs same_page (sprintf_pageBuffer f).
Proof.
  intros Hf g1 g2 HR. unfold sprintf_pageBuffer. rewrite (Hf g1 g2 HR).
  destruct (fits (f g2) pageBuffer_size); cbn; [|exact I].
  split; [exact HR | reflexivity].
Qed.

Lemma respects_strcat_page (lit : string) :
  respects same_page same_page (strcat_pageBuffer lit).
Proof.
  intros g1 g2 [HR Hp]. unfold strcat_pageBuffer. rewrite Hp.
  destruct (fits _ pageBuffer_size); cbn; [|exact I].
  split; [exact HR | reflexivity].
Qed.

Lemma respects_strcat_text (lit : string) :
  respects same_text same_text (strcat_pageBuffer lit).
Proof.
  intros g1 g2 [[HR Hp] Hl]. unfold strcat_pageBuffer. rewrite Hp.
  destruct (fits _ pageBuffer_size); cbn; [|exact I].
  split; [split; [exact HR | reflexivity] | exact Hl].
Qed.

Lemma respects_sprintf_lineBuffer (f : Globals -> string) :
  reads_inputs f -> respects same_page same_text (sprintf_lineBuffer f).
Proof.
  intros Hf g1 g2 [HR Hp]. unfold sprintf_lineBuffer. rewrite (Hf g1 g2 HR).
  destruct (fits _ lineBuffer_size); cbn; [|exact I].
  split; [split; [exact HR | exact Hp] | reflexivity].
Qed.

Lemma respects_strcat_lineBuffer :
  respects same_text same_text strcat_pageBuffer_lineBuffer.
Proof.
  intros g1 g2 HR. unfold strcat_pageBuffer_lineBuffer.
  rewrite (proj2 HR). now apply respects_strcat_text.
Qed.

Lemma respects_line (f : Globals -> string) (rest : stmt) (R : Globals -> Globals -> Prop) :
  reads_inputs f -> respects same_text R rest ->
  respects same_page R (sprintf_lineBuffer f ;; strcat_pageBuffer_lineBuffer ;; rest)%stmt.
Proof.
  intros Hf Hrest.
  apply (respects_seq _ same_text); [now apply respects_sprintf_lineBuffer|].
  apply (respects_seq _ same_text); [apply respects_strcat_lineBuffer | exact Hrest].
Qed.

Lemma respects_weaken (R' : Globals -> Globals -> Prop) (s : stmt) :
  respects same_page R' s -> respects same_text R' s.
Proof. intros H g1 g2 [HR _]. now apply H. Qed.

Lemma respects_skip : respects same_text same_text Some.
Proof. intros g1 g2 HR. exact HR. Qed.

Ltac reads_inputs_tac :=
  let Hr := fresh in let Ha := fresh in let Hq := fresh in
  let Hl := fresh in let Hp := fresh in let Hs := fresh in
  intros ? ? (Hr & Ha & Hq & Hl & Hp & Hs); cbn beta;
  rewrite ?Hr, ?Ha, ?Hq, ?Hl, ?Hp, ?Hs; reflexivity.

Lemma same_inputs_refl (g : Globals) : same_inputs g g.
Proof. repeat split. Qed.

Lemma same_inputs_trans (g1 g2 g3 : Globals) :
  same_inputs g1 g2 -> same_inputs g2 g3 -> same_inputs g1 g3.
Proof.
  intros (H1 & H2 & H3 & H4 & H5 & H6) (K1 & K2 & K3 & K4 & K5 & K6).
  repeat split; congruence.
Qed.

Lemma keeps_inputs_seq (a b : stmt) :
  keeps_inputs a -> keeps_inputs b -> keeps_inputs (a ;; b)%stmt.
Proof.
  intros Ha Hb g g'. unfold seq. destruct (a g) as [g1|] eqn:Hg1; [|discriminate].
  intros Hg'. exact (same_inputs_trans _ _ _ (Ha _ _ Hg1) (Hb _ _ Hg')).
Qed.

Lemma keeps_inputs_sprintf_pageBuffer (f : Globals -> string) :
  keeps_inputs (sprintf_pageBuffer f).
Proof.
  intros g g'. unfold sprintf_pageBuffer.
  destruct (fits _ _); [|discriminate]. intros [= <-]. repeat split.
Qed.

Lemma keeps_inputs_sprintf_lineBuffer (f : Globals -> string) :
  keeps_inputs (sprintf_lineBuffer f).
Proof.
  intros g g'. unfold sprintf_lineBuffer.
  destruct (fits _ _); [|discriminate]. intros [= <-]. repeat split.
Qed.

Lemma keeps_inputs_strcat (lit : string) : keeps_inputs (strcat_pageBuffer lit).
Proof.
  intros g g'. unfold strcat_pageBuffer.
  destruct (fits _ _); [|discriminate]. intros [= <-]. repeat split.
Qed.

Lemma keeps_inputs_strcat_lineBuffer : keeps_inputs strcat_pageBuffer_lineBuffer.
Proof. intros g g'. apply keeps_inputs_strcat. Qed.

Ltac keeps :=
  repeat first
    [ apply keeps_inputs_seq
    | apply keeps_inputs_sprintf_pageBuffer
    | apply keeps_inputs_sprintf_lineBuffer
    | apply keeps_inputs_strcat_lineBuffer
    | apply keeps_inputs_strcat ].

Ltac keeps_at g g' :=
  match goal with
  | |- ?s g = Some g' -> _ =>
      let K := fresh in enough (K : keeps_inputs s) by exact (K g g')
  end.

Section Determinism.

Context {hdr : Metriful_sensor_h}.

Lemma respects_air_quality_section :
  respects same_text same_text air_quality_section.
Proof.
  intros g1 g2 HR. unfold air_quality_section.
  assert (Hq : airQualityData g1 = airQualityData g2) by apply HR.
  rewrite Hq. destruct (AQI_accuracy (airQualityData g2) =? 0); revert g1 g2 HR Hq.
  - intros g1 g2 HR _. revert g1 g2 HR.
    apply respects_weaken.
    apply (respects_seq _ same_text);
      [apply respects_sprintf_lineBuffer; reads_inputs_tac
      | apply respects_strcat_lineBuffer].
  - intros g1 g2 HR _. revert g1 g2 HR.
    apply respects_weaken.
    apply respects_line; [reads_inputs_tac|]. apply respects_weaken.
    apply respects_line; [reads_inputs_tac|]. apply respects_weaken.
    apply respects_line; [reads_inputs_tac|]. apply respects_weaken.
    apply (respects_seq _ same_text);
      [apply respects_sprintf_lineBuffer; reads_inputs_tac
      | apply respects_strcat_lineBuffer].
Qed.

Lemma respects_sound_band_rows (fuel : nat) :
  forall i, respects same_text same_text (sound_band_rows fuel i).
Proof.
  induction fuel as [|fuel IH]; intros i g1 g2 HR; cbn [sound_band_rows].
  - exact I.
  - assert (Hs : soundData g1 = soundData g2) by apply HR. rewrite Hs.
    destruct (i <? SOUND_FREQ_BANDS); [|exact HR].
    destruct (nth_error sound_band_mids_Hz (Z.to_nat i)) as [mid|]; [|exact I].
    destruct (nth_error (SPL_bands_dB_int (soundData g2)) (Z.to_nat i)) as [level|];
      [|exact I].
    destruct (nth_error (SPL_bands_dB_fr_1dp (soundData g2)) (Z.to_nat i)) as [level_fr|];
      [|exact I].
    revert g1 g2 HR Hs. intros g1 g2 HR _. revert g1 g2 HR.
    apply respects_weaken.
    apply respects_line; [intros ? ? _; reflexivity | apply IH].
Qed.

Lemma respects_particle_section :
  respects same_text same_text particle_section.
Proof.
  intros g1 g2 HR. unfold particle_section.
  destruct (negb (PARTICLE_SENSOR =? PARTICLE_SENSOR_OFF)); [|exact HR].
  revert g1 g2 HR.
  apply (respects_seq _ same_text); [apply respects_strcat_text|].
  apply respects_weaken.
  apply respects_line; [reads_inputs_tac|].
  intros g1 g2 HR. destruct particle_units as [unitsBuffer|]; [|exact I].
  revert g1 g2 HR. apply respects_weaken.
  apply (respects_seq _ same_text);
    [apply respects_sprintf_lineBuffer; reads_inputs_tac
    | apply respects_strcat_lineBuffer].
Qed.

Lemma respects_assembleWebPage :
  respects same_inputs same_text assembleWebPage.
Proof.
  unfold assembleWebPage.
  apply (respects_seq _ same_page);
    [apply respects_sprintf_pageBuffer; reads_inputs_tac|].
  apply (respects_seq _ same_page); [apply respects_strcat_page|].
  apply (respects_seq _ same_page); [apply respects_strcat_page|].
  apply respects_line; [reads_inputs_tac|]. apply respects_weaken.
  apply respects_line; [reads_inputs_tac|]. apply respects_weaken.
  apply respects_line; [reads_inputs_tac|]. apply respects_weaken.
  apply respects_line; [reads_inputs_tac|].
  apply (respects_seq _ same_text); [apply respects_strcat_text|].
  apply (respects_seq _ same_text); [apply respects_air_quality_section|].
  apply (respects_seq _ same_text); [apply respects_strcat_text|].
  apply respects_weaken.
  apply respects_line; [reads_inputs_tac|].
  apply (respects_seq _ same_text); [apply respects_sound_band_rows|].
  apply respects_weaken.
  apply respects_line; [reads_inputs_tac|].
  apply (respects_seq _ same_text); [apply respects_strcat_text|].
  apply respects_weaken.
  apply respects_line; [reads_inputs_tac|]. apply respects_weaken.
  apply respects_line; [reads_inputs_tac|].
  apply (respects_seq _ same_text); [apply respects_particle_section|].
  apply respects_strcat_text.
Qed.

Lemma keeps_inputs_air_quality_section : keeps_inputs air_quality_section.
Proof.
  intros g g'. unfold air_quality_section.
  destruct (AQI_accuracy (airQualityData g) =? 0); keeps_at g g'; keeps.
Qed.

Lemma keeps_inputs_sound_band_rows (fuel : nat) :
  forall i, keeps_inputs (sound_band_rows fuel i).
Proof.
  induction fuel as [|fuel IH]; intros i g g'; cbn [sound_band_rows];
    [discriminate|].
  destruct (i <? SOUND_FREQ_BANDS); [|intros [= <-]; apply same_inputs_refl].
  destruct (nth_error sound_band_mids_Hz (Z.to_nat i)); [|discriminate].
  destruct (nth_error (SPL_bands_dB_int (soundData g)) (Z.to_nat i)); [|discriminate].
  destruct (nth_error (SPL_bands_dB_fr_1dp (soundData g)) (Z.to_nat i));
    [|discriminate].
  keeps_at g g'. keeps. apply IH.
Qed.

Lemma keeps_inputs_particle_section : keeps_inputs particle_section.
Proof.
  intros g g'. unfold particle_section.
  destruct (negb (PARTICLE_SENSOR =? PARTICLE_SENSOR_OFF));
    [|intros [= <-]; apply same_inputs_refl].
  keeps_at g g'. keeps.
  intros g1 g1'. destruct particle_units; [|discriminate].
  keeps_at g1 g1'. keeps.
Qed.

Lemma keeps_inputs_assembleWebPage : keeps_inputs assembleWebPage.
Proof.
  unfold assembleWebPage. keeps.
  - apply keeps_inputs_air_quality_section.
  - apply keeps_inputs_sound_band_rows.
  - apply keeps_inputs_particle_section.
Qed.

End Determinism.

(** C9. Two runs of [assembleWebPage] that start with the same records and
    the same refresh period, whatever the buffers and the other globals
    hold, both overrun a buffer or leave the same bytes in [pageBuffer];
    and a second run right after a first one leaves the page as it is. *)
Theorem assembleWebPage_deterministic {hdr : Metriful_sensor_h} (g1 g2 : Globals) :
  same_inputs g1 g2 ->
  option_map pageBuffer (assembleWebPage g1) =
    option_map pageBuffer (assembleWebPage g2) /\
  (forall g1', assembleWebPage g1 = Some g1' ->
     option_map pageBuffer (assembleWebPage g1') = Some (pageBuffer g1')).
Proof.
  assert (Hsame : forall a b, same_inputs a b ->
            option_map pageBuffer (assembleWebPage a) =
            option_map pageBuffer (assembleWebPage b)).
  { intros a b HR. pose proof (respects_assembleWebPage a b HR) as H.
    destruct (assembleWebPage a), (assembleWebPage b); cbn in *;
      try contradiction; [|reflexivity].
    f_equal. apply H. }
  intros HR. split; [now apply Hsame|].
  intros g1' Hrun.
  rewrite <- (Hsame g1 g1' (keeps_inputs_assembleWebPage g1 g1' Hrun)).
  now rewrite Hrun.
Qed.

Lemma assembleWebPage_deterministic_witness :
  option_map pageBuffer (@assembleWebPage (MS430 1) (largest_values 0)) =
  option_map pageBuffer
    (@assembleWebPage (MS430 1)
       (set_theIP {| ip0 := 10; ip1 := 0; ip2 := 0; ip3 := 1 |}
          (with_buffers "stale line" "stale page" (largest_values 0)))).
Proof.
  apply (@assembleWebPage_deterministic (MS430 1)).
  repeat split.
Defined.

Local Open Scope list_scope.

(** ** The client dispatcher *)

Lemma has_blank_line_cons (c : ascii) (inbound : list ascii) :
  has_blank_line (c :: inbound) <->
  (c = LF /\ ends_blank_line inbound) \/ has_blank_line inbound.
Proof.
  split.
  - intros ([|x before] & returns & after & Heq & Hcr); cbn in Heq;
      injection Heq as -> ->.
    + left. split; [reflexivity|]. now exists returns, after.
    + right. now exists before, returns, after.
  - intros [[-> (returns & after & -> & Hcr)] | (before & returns & after & -> & Hcr)].
    + now exists [], returns, after.
    + now exists (c :: before), returns, after.
Qed.

Lemma ends_blank_line_cons (c : ascii) (inbound : list ascii) :
  ends_blank_line (c :: inbound) <-> c = LF \/ (c = CR /\ ends_blank_line inbound).
Proof.
  split.
  - intros ([|x returns] & after & Heq & Hcr); cbn in Heq; injection Heq as -> ->.
    + now left.
    + right. inversion Hcr; subst. split; [reflexivity|]. now exists returns, after.
  - intros [-> | [-> (returns & after & -> & Hcr)]].
    + now exists [], inbound.
    + exists (CR :: returns), after. split; [reflexivity | now constructor].
Qed.

Lemma CR_not_LF : CR <> LF.
Proof. discriminate. Qed.

Lemma read_request_spec (inbound : list ascii) :
  forall blankLine,
    read_request inbound blankLine = true <->
    (blankLine = true /\ ends_blank_line inbound) \/ has_blank_line inbound.
Proof.
  induction inbound as [|c inbound IH]; intros blankLine; cbn [read_request].
  - split; [discriminate|].
    intros [[_ ([|?] & ? & Heq & _)] | ([|?] & ? & ? & Heq & _)]; discriminate.
  - rewrite has_blank_line_cons, ends_blank_line_cons.
    destruct (Ascii.eqb_spec c LF) as [->|Hlf].
    + destruct blankLine.
      * split; [intros _; left; split; [reflexivity | now left] | reflexivity].
      * rewrite IH. pose proof CR_not_LF. intuition congruence.
    + destruct (Ascii.eqb_spec c CR) as [->|Hcr]; cbn [negb]; rewrite IH.
      * intuition congruence.
      * intuition congruence.
Qed.

(** C4. For every sequence of bytes a client sends before it hangs up, the
    dispatcher prints the whole of [pageBuffer] once, then closes the
    connection, when the bytes hold an empty line, and only closes the
    connection when they do not; a request ending in CR LF CR LF is
    answered, the same request cut after the first CR LF is not. *)
Theorem handleClientRequests_blank_line (g : Globals) (inbound : list ascii) :
  (has_blank_line inbound <->
   handleClientRequests (Some inbound) g =
     [Client_print (pageBuffer g); Delay 10; Client_stop]) /\
  (~ has_blank_line inbound <->
   handleClientRequests (Some inbound) g = [Delay 10; Client_stop]) /\
  handleClientRequests None g = [] /\
  handleClientRequests (Some complete_request) g =
    [Client_print (pageBuffer g); Delay 10; Client_stop] /\
  handleClientRequests (Some unfinished_request) g =
    [Delay 10; Client_stop].
Proof.
  assert (Hspec : read_request inbound false = true <-> has_blank_line inbound).
  { rewrite read_request_spec. intuition congruence. }
  unfold handleClientRequests.
  repeat split; try reflexivity.
  - intros H. apply Hspec in H. now rewrite H.
  - destruct (read_request inbound false); [intros _; now apply Hspec | discriminate].
  - intros H. destruct (read_request inbound false); [|reflexivity].
    exfalso. apply H. now apply Hspec.
  - destruct (read_request inbound false); [discriminate|].
    intros _ H. apply Hspec in H. discriminate.
Qed.

(** ** Start-up and the main loop *)

Lemma handleClientRequests_events (client : option (list ascii)) (g : Globals) :
  Forall (waiting_event (pageBuffer g)) (handleClientRequests client g).
Proof.
  unfold handleClientRequests.
  destruct client as [inbound|]; [|constructor].
  destruct (read_request inbound false); cbn;
    repeat first [apply Forall_nil | apply Forall_cons; [unfold waiting_event; auto 10|]].
Qed.

Lemma wait_for_ready_spec (rounds : list Round) :
  forall g events,
    exists b more,
      fst (fst (wait_for_ready rounds g events)) = set_ready_assertion_event b g /\
      snd (fst (wait_for_ready rounds g events)) = events ++ more /\
      Forall (waiting_event (pageBuffer g)) more /\
      (snd (wait_for_ready rounds g events) <> None -> b = true) /\
      (snd (wait_for_ready rounds g events) = None -> b = false).
Proof.
  induction rounds as [|r rounds IH]; intros g events; cbn [wait_for_ready].
  - destruct (ready_assertion_event g) eqn:Hready; cbn [fst snd].
    + exists true, []. rewrite app_nil_r. destruct g; cbn in *; subst.
      repeat split; auto; discriminate.
    + exists false, []. rewrite app_nil_r. destruct g; cbn in *; subst.
      repeat split; auto; intros H; now contradiction H.
  - destruct (ready_assertion_event g) eqn:Hready; cbn [fst snd].
    + exists true, []. rewrite app_nil_r. destruct g; cbn in *; subst.
      repeat split; auto; discriminate.
    + destruct (IH (interrupt (ready_asserted r) g)
                   (events ++ handleClientRequests (pending_client r) g ++ [Yield]))
        as (b & more & Hg & Hev & Hmore & Hsome & Hnone).
      exists b, (handleClientRequests (pending_client r) g ++ [Yield] ++ more).
      rewrite Hg, Hev. repeat split; auto.
      * now rewrite <- !app_assoc.
      * apply Forall_app. split; [apply handleClientRequests_events|].
        constructor; [now left | exact Hmore].
Qed.

Section SchedulerFacts.

Context {hdr : Metriful_sensor_h} {wifi : WiFi_functions_h} {regs : Sensor_registers}.

Lemma setup_returns (dev : Startup) (g : Globals) :
  (createWifiNetwork g = true -> createWiFiAP_ok dev = true) ->
  exists ip events,
    setup dev g =
      Returned
        (set_ready_assertion_event false
           (set_refreshPeriodSeconds
              (if cycle_period g =? CYCLE_PERIOD_3_S then 3
               else if cycle_period g =? CYCLE_PERIOD_100_S then 30 else 50)
              (set_theIP ip g)))
        events.
Proof.
  intros Hap. unfold setup. destruct g as [c mode ip r a q l p s lb pb ready].
  cbn [createWifiNetwork cycle_period theIP] in *. destruct mode.
  - rewrite (Hap eq_refl). cbn [negb]. exists ip. eexists.
    cbn [cycle_period].
    destruct (c =? CYCLE_PERIOD_3_S); [|destruct (c =? CYCLE_PERIOD_100_S)];
      reflexivity.
  - exists (startup_localIP dev). eexists.
    cbn [cycle_period set_theIP].
    destruct (c =? CYCLE_PERIOD_3_S); [|destruct (c =? CYCLE_PERIOD_100_S)];
      reflexivity.
Qed.

End SchedulerFacts.

(** C3, as the code has it.  [setup] returns unless the access point
    cannot be created, and the refresh period it selects is 3, 30 or 50
    seconds for a release of data every 3, 100 or 300 seconds: never
    longer than the time between two releases, and longer for a longer
    cycle. *)
Theorem refresh_period_within_cycle
    {hdr : Metriful_sensor_h} {regs : Sensor_registers}
    (dev1 dev2 : Startup) (g1 g2 : Globals) :
  (createWifiNetwork g1 = true -> createWiFiAP_ok dev1 = true) ->
  (createWifiNetwork g2 = true -> createWiFiAP_ok dev2 = true) ->
  exists g1' events1 g2' events2,
    setup dev1 g1 = Returned g1' events1 /\
    setup dev2 g2 = Returned g2' events2 /\
    refreshPeriodSeconds g1' <= cycle_seconds (cycle_period g1) /\
    (cycle_seconds (cycle_period g1) = 3 -> refreshPeriodSeconds g1' = 3) /\
    (cycle_seconds (cycle_period g1) = 100 -> refreshPeriodSeconds g1' = 30) /\
    (cycle_seconds (cycle_period g1) = 300 -> refreshPeriodSeconds g1' = 50) /\
    (cycle_seconds (cycle_period g1) < cycle_seconds (cycle_period g2) ->
     refreshPeriodSeconds g1' < refreshPeriodSeconds g2').
Proof.
  intros Hap1 Hap2.
  destruct (setup_returns dev1 g1 Hap1) as (ip1 & ev1 & Hs1).
  destruct (setup_returns dev2 g2 Hap2) as (ip2 & ev2 & Hs2).
  do 4 eexists. split; [exact Hs1|]. split; [exact Hs2|].
  cbn [refreshPeriodSeconds set_ready_assertion_event set_refreshPeriodSeconds].
  unfold cycle_seconds.
  destruct (cycle_period g1 =? CYCLE_PERIOD_3_S);
    [|destruct (cycle_period g1 =? CYCLE_PERIOD_100_S)];
    (destruct (cycle_period g2 =? CYCLE_PERIOD_3_S);
     [|destruct (cycle_period g2 =? CYCLE_PERIOD_100_S)]);
    repeat split; lia.
Qed.

Lemma refresh_period_within_cycle_witness :
  exists g1' events1 g2' events2,
    setup (hdr := MS430 0) (regs := MS430_registers) startup_example
      (initial_globals (hdr := MS430 0) 1 false) = Returned g1' events1 /\
    setup (hdr := MS430 0) (regs := MS430_registers) startup_example
      (initial_globals (hdr := MS430 0) 2 true) = Returned g2' events2 /\
    refreshPeriodSeconds g1' = 30 /\ refreshPeriodSeconds g2' = 50.
Proof.
  destruct (refresh_period_within_cycle (hdr := MS430 0) (regs := MS430_registers)
              startup_example startup_example
              (initial_globals (hdr := MS430 0) 1 false)
              (initial_globals (hdr := MS430 0) 2 true)
              ltac:(discriminate) ltac:(reflexivity))
    as (g1' & ev1 & g2' & ev2 & H1 & H2 & _).
  exists g1', ev1, g2', ev2. split; [exact H1|]. split; [exact H2|].
  cbn in H1, H2. injection H1 as <- _. injection H2 as <- _. split; reflexivity.
Defined.

(** C3, as the claim has it, fails: with a release of data every 100
    seconds the page is refreshed every 30 seconds, which is less than the
    time between two releases. *)
Lemma refresh_period_at_least_cycle_counterexample :
  exists g' events,
    setup (hdr := MS430 0) (regs := MS430_registers) startup_example
      (initial_globals (hdr := MS430 0) (CYCLE_PERIOD_100_S (Metriful_sensor_h := MS430 0)) false) =
      Returned g' events /\
    cycle_seconds (hdr := MS430 0) (cycle_period g') = 100 /\
    refreshPeriodSeconds g' = 30 /\
    ~ (cycle_seconds (hdr := MS430 0) (cycle_period g') <= refreshPeriodSeconds g').
Proof.
  do 2 eexists. split; [reflexivity|]. cbn. repeat split. lia.
Qed.

Section FirstWait.

Context {hdr : Metriful_sensor_h} {regs : Sensor_registers}.

Lemma setup_result (dev : Startup) (g g' : Globals) (events : list Event) :
  setup dev g = Returned g' events ->
  exists ip r,
    g' = set_ready_assertion_event false (set_refreshPeriodSeconds r (set_theIP ip g)) /\
    (r = 3 \/ r = 30 \/ r = 50).
Proof.
  unfold setup. destruct g as [c mode ip r a q l p s lb pb ready].
  cbn [createWifiNetwork cycle_period theIP]. destruct mode.
  - destruct (createWiFiAP_ok dev); cbn [negb]; [|discriminate].
    cbn [cycle_period].
    destruct (c =? CYCLE_PERIOD_3_S); [|destruct (c =? CYCLE_PERIOD_100_S)];
      intros H; injection H as <- _; exists ip; eexists; split;
      try reflexivity; auto.
  - cbn [cycle_period set_theIP].
    destruct (c =? CYCLE_PERIOD_3_S); [|destruct (c =? CYCLE_PERIOD_100_S)];
      intros H; injection H as <- _; exists (startup_localIP dev); eexists; split;
      try reflexivity; auto.
Qed.

Lemma Forall_repeat {A : Type} (P : A -> Prop) (x : A) (n : nat) :
  P x -> Forall P (repeat x n).
Proof. intros Hx. induction n; cbn; constructor; assumption. Qed.

Lemma zero_records_in_range (c : Z) (mode : bool) (ip : IPAddress) (r : Z) :
  r = 3 \/ r = 30 \/ r = 50 ->
  records_in_range
    (set_ready_assertion_event false
       (set_refreshPeriodSeconds r (set_theIP ip (initial_globals c mode)))).
Proof.
  intros Hr.
  constructor; cbn; [unfold uint16; lia | | | | |];
    constructor; cbn;
    try (unfold uint8, uint16, uint32, fr_1dp, fr_2dp; cbn; lia);
    try apply repeat_length;
    apply Forall_repeat; unfold uint8, fr_1dp; lia.
Qed.

End FirstWait.

(** C6, at the input that shows the defect.  After [setup], and for as long
    as the first wait lasts, [pageBuffer] still holds the empty string it
    was initialised with: every answer the dispatcher sends is empty, while
    the page of the all-zero records, which [assembleWebPage] would build
    from the same globals, starts with the HTTP status line. *)
Theorem first_wait_serves_empty_buffer
    {hdr : Metriful_sensor_h} {regs : Sensor_registers}
    (dev : Startup) (cycle : Z) (mode : bool) (rounds : list Round)
    (g : Globals) (events : list Event) :
  setup dev (initial_globals cycle mode) = Returned g events ->
  pageBuffer g = "" /\
  Forall (waiting_event "") (snd (fst (wait_for_ready rounds g []))) /\
  pageBuffer (fst (fst (wait_for_ready rounds g []))) = "" /\
  handleClientRequests (Some complete_request) g =
    [Client_print ""; Delay 10; Client_stop] /\
  (header_ok ->
   exists g2 body,
     assembleWebPage g = Some g2 /\
     pageBuffer g2 = ("HTTP/1.1 200 OK" ++ body)%string).
Proof.
  intros Hsetup.
  destruct (setup_result dev _ _ _ Hsetup) as (ip & r & -> & Hr).
  destruct (wait_for_ready_spec rounds
              (set_ready_assertion_event false
                 (set_refreshPeriodSeconds r (set_theIP ip (initial_globals cycle mode))))
              []) as (b & more & Hg & Hev & Hmore & _).
  split; [reflexivity|]. split; [rewrite Hev; exact Hmore|].
  split; [rewrite Hg; reflexivity|]. split; [reflexivity|].
  intros Hh.
  destruct (assembleWebPage_runs Hh _ (zero_records_in_range cycle mode ip r Hr))
    as [l Hrun].
  eexists. eexists. split; [exact Hrun|].
  cbn [pageBuffer with_buffers set_lineBuffer set_pageBuffer].
  unfold page_text, http_header. rewrite !append_assoc. reflexivity.
Qed.

Lemma first_wait_serves_empty_buffer_witness :
  exists g events,
    setup (hdr := MS430 0) (regs := MS430_registers) startup_example
      (initial_globals (hdr := MS430 0) 0 false) = Returned g events /\
    handleClientRequests (Some complete_request) g =
      [Client_print ""; Delay 10; Client_stop].
Proof.
  do 2 eexists. split; [reflexivity|].
  apply (first_wait_serves_empty_buffer (hdr := MS430 0) (regs := MS430_registers)
           startup_example 0 false [] _ _ eq_refl).
Defined.

Section Cycle.

Context {hdr : Metriful_sensor_h} {wifi : WiFi_functions_h} {regs : Sensor_registers}.

Lemma records_in_range_same_inputs (g1 g2 : Globals) :
  same_inputs g1 g2 -> records_in_range g1 -> records_in_range g2.
Proof.
  intros (Hr & Ha & Hq & Hl & Hp & Hs) [H1 H2 H3 H4 H5 H6].
  constructor; congruence.
Qed.

Lemma read_data_events (dev : Acquisition) (g : Globals) :
  Forall (fun e => ~ link_event e) (snd (read_data dev g)).
Proof.
  unfold read_data.
  assert (Hrx : forall a r n, ~ link_event (ReceiveI2C a r n)).
  { intros a r n [H | [H | (s & p & H)]]; discriminate. }
  destruct (negb (PARTICLE_SENSOR =? PARTICLE_SENSOR_OFF)); cbn [snd app];
    repeat constructor; apply Hrx.
Qed.

Lemma read_data_flag (dev : Acquisition) (g : Globals) (b : bool) :
  same_inputs (fst (read_data dev g)) (fst (read_data dev (set_ready_assertion_event b g))) /\
  snd (read_data dev (set_ready_assertion_event b g)) = snd (read_data dev g) /\
  createWifiNetwork (fst (read_data dev (set_ready_assertion_event b g))) =
    createWifiNetwork g /\
  theIP (fst (read_data dev (set_ready_assertion_event b g))) = theIP g /\
  ready_assertion_event (fst (read_data dev (set_ready_assertion_event b g))) = b.
Proof.
  unfold read_data.
  destruct (negb (PARTICLE_SENSOR =? PARTICLE_SENSOR_OFF)); cbn; repeat split.
Qed.

Lemma waiting_event_not_link (page : string) (e : Event) :
  waiting_event page e -> ~ link_event e.
Proof.
  intros [-> | [-> | [-> | ->]]] [H | [H | (s & p & H)]]; discriminate.
Qed.

(** Once the flag has been seen and the records read are within their
    ranges, [loop()] assembles the page, checks the connection and
    returns. *)
Lemma loop_returns (rounds : list Round) (dev : Acquisition)
    (g gw : Globals) (evw : list Event) (rest : list Round) :
  header_ok ->
  wait_for_ready rounds g [] = (gw, evw, Some rest) ->
  records_in_range (fst (read_data dev gw)) ->
  exists g0 l,
    same_inputs (fst (read_data dev gw)) g0 /\
    createWifiNetwork g0 = createWifiNetwork g /\
    theIP g0 = theIP g /\
    ready_assertion_event g0 = ready_during_readout dev /\
    assembleWebPage g0 = Some (with_buffers l (page_text g0) g0) /\
    Forall (fun e => ~ link_event e) (evw ++ snd (read_data dev gw)) /\
    loop rounds dev g =
      Returned (fst (check_WiFi dev (with_buffers l (page_text g0) g0)))
               ((evw ++ snd (read_data dev gw)) ++
                snd (check_WiFi dev (with_buffers l (page_text g0) g0))).
Proof.
  intros Hh Hwait Hrange.
  destruct (wait_for_ready_spec rounds g []) as (b & more & Hg & Hev & Hmore & _).
  rewrite Hwait in Hg, Hev. cbn [fst snd app] in Hg, Hev. subst gw evw.
  destruct (read_data_flag dev (set_ready_assertion_event b g) false)
    as (Hsame & Hevents & Hmode & Hip & Hclear).
  set (g0 := interrupt (ready_during_readout dev)
               (fst (read_data dev
                       (set_ready_assertion_event false
                          (set_ready_assertion_event b g))))).
  assert (Hsame0 : same_inputs (fst (read_data dev (set_ready_assertion_event b g))) g0)
    by exact Hsame.
  destruct (assembleWebPage_runs Hh g0 (records_in_range_same_inputs _ _ Hsame0 Hrange))
    as [l Hrun].
  exists g0, l.
  split; [exact Hsame0|]. split; [exact Hmode|]. split; [exact Hip|].
  split; [unfold g0, interrupt; cbn; now rewrite Hclear|].
  split; [exact Hrun|]. split.
  - apply Forall_app. split; [|apply read_data_events].
    eapply Forall_impl; [|exact Hmore]. intros e. apply waiting_event_not_link.
  - unfold loop. rewrite Hwait. unfold acquire.
    destruct (read_data dev (set_ready_assertion_event false
                               (set_ready_assertion_event b g))) as [gr evr] eqn:Hread.
    cbn [fst snd] in *. fold g0. rewrite Hrun.
    destruct (check_WiFi dev (with_buffers l (page_text g0) g0)) as [gc evc].
    cbn [fst snd]. rewrite Hevents. now rewrite app_assoc.
Qed.

Lemma wait_for_ready_blocked (rounds : list Round) :
  forall g events,
    ready_assertion_event g = false ->
    Forall (fun r => ready_asserted r = false) rounds ->
    snd (wait_for_ready rounds g events) = None.
Proof.
  induction rounds as [|r rounds IH]; intros g events Hflag Hrounds;
    cbn [wait_for_ready]; rewrite Hflag; [reflexivity|].
  inversion Hrounds as [|? ? Hr Hrest]; subst.
  apply IH; [|exact Hrest]. cbn. now rewrite Hflag, Hr.
Qed.

End Cycle.

(** C10. When the sketch joined a network and the check finds the link
    down, [ready_assertion_event] is clear when [loop()] returns, whatever
    the interrupt routine did during the readout and the reconnection, and
    the next call of [loop()] stays in its waiting loop until a round sets
    the flag again.  When the link is up the flag is left as the interrupt
    routine set it during the readout. *)
Theorem reconnection_clears_ready_flag
    {hdr : Metriful_sensor_h} {wifi : WiFi_functions_h} {regs : Sensor_registers}
    (rounds : list Round) (dev : Acquisition)
    (g gw : Globals) (evw : list Event) (rest : list Round) :
  header_ok ->
  wait_for_ready rounds g [] = (gw, evw, Some rest) ->
  records_in_range (fst (read_data dev gw)) ->
  createWifiNetwork g = false ->
  exists g' events,
    loop rounds dev g = Returned g' events /\
    (wifiStatus dev <> WL_CONNECTED ->
     ready_assertion_event g' = false /\
     forall rounds' dev',
       Forall (fun r => ready_asserted r = false) rounds' ->
       exists g'' events', loop rounds' dev' g' = Blocked g'' events') /\
    (wifiStatus dev = WL_CONNECTED ->
     ready_assertion_event g' = ready_during_readout dev).
Proof.
  intros Hh Hwait Hrange Hjoin.
  destruct (loop_returns rounds dev g gw evw rest Hh Hwait Hrange)
    as (g0 & l & _ & Hmode & _ & Hflag & _ & _ & Hloop).
  do 2 eexists. split; [exact Hloop|].
  unfold check_WiFi.
  change (createWifiNetwork (with_buffers l (page_text g0) g0))
    with (createWifiNetwork g0).
  rewrite Hmode, Hjoin. cbn [negb].
  split; intros Hst.
  - destruct (Z.eqb_spec (wifiStatus dev) WL_CONNECTED); [contradiction|].
    cbn [negb fst]. split; [reflexivity|].
    intros rounds' dev' Hquiet. unfold loop.
    match goal with |- context [wait_for_ready rounds' ?s []] =>
      pose proof (wait_for_ready_blocked rounds' s [] eq_refl Hquiet) as Hblocked;
      destruct (wait_for_ready rounds' s []) as [[gb evb] ob] end.
    cbn [snd] in Hblocked. subst ob. now exists gb, evb.
  - rewrite Hst, Z.eqb_refl. cbn [negb fst]. exact Hflag.
Qed.

Lemma example_records_in_range (status : Z) (g : Globals) :
  refreshPeriodSeconds g = 3 ->
  records_in_range (hdr := MS430 1)
    (fst (read_data (hdr := MS430 1) (regs := MS430_registers)
            (acquisition_example status) g)).
Proof.
  intros Hr.
  repeat constructor; cbn; rewrite ?Hr;
    unfold uint8, uint16, uint32, fr_1dp, fr_2dp in *; lia.
Qed.

Lemma reconnection_clears_ready_flag_witness :
  exists g' events,
    loop (hdr := MS430 1) (wifi := WiFiNINA) (regs := MS430_registers)
      rounds_example (acquisition_example 6) started_example = Returned g' events /\
    ready_assertion_event g' = false.
Proof.
  edestruct (reconnection_clears_ready_flag
               (hdr := MS430 1) (wifi := WiFiNINA) (regs := MS430_registers)
               rounds_example (acquisition_example 6) started_example)
    as (g' & events & Hloop & Hdown & _).
  - apply MS430_header_ok.
  - reflexivity.
  - apply example_records_in_range. reflexivity.
  - reflexivity.
  - exists g', events. split; [exact Hloop|].
    apply Hdown. discriminate.
Defined.

(** * Further properties *)

(** ** The dispatcher and the waiting loop *)

Lemma read_request_without_CR (inbound : list ascii) :
  forall blankLine,
    read_request (without_CR inbound) blankLine = read_request inbound blankLine.
Proof.
  induction inbound as [|c inbound IH]; intros blankLine; [reflexivity|].
  cbn [without_CR filter read_request]. fold (without_CR inbound).
  destruct (Ascii.eqb_spec c CR) as [->|Hcr]; cbn [negb].
  - change (Ascii.eqb CR LF) with false. cbn iota. apply IH.
  - cbn [read_request]. destruct (Ascii.eqb c LF).
    + destruct blankLine; [reflexivity | apply IH].
    + destruct (Ascii.eqb_spec c CR); [contradiction|]. cbn [negb]. apply IH.
Qed.

(** X1. Carriage returns play no part: a request and the same request with
    every carriage return removed get the same treatment. *)
Theorem handleClientRequests_ignores_CR (g : Globals) (inbound : list ascii) :
  handleClientRequests (Some (without_CR inbound)) g =
  handleClientRequests (Some inbound) g.
Proof.
  unfold handleClientRequests. now rewrite read_request_without_CR.
Qed.

Lemma has_blank_line_two_LF (inbound : list ascii) :
  has_blank_line inbound -> (2 <= count_occ ascii_dec inbound LF)%nat.
Proof.
  intros (before & returns & after & -> & _).
  rewrite count_occ_app. cbn [count_occ].
  destruct (ascii_dec LF LF) as [_|H]; [|contradiction].
  rewrite count_occ_app. cbn [count_occ].
  destruct (ascii_dec LF LF) as [_|H]; [|contradiction]. lia.
Qed.

(** X2. A request with fewer than two line feeds is never answered: the
    connection is closed without a byte being sent. *)
Theorem handleClientRequests_needs_two_LF (g : Globals) (inbound : list ascii) :
  (count_occ ascii_dec inbound LF < 2)%nat ->
  handleClientRequests (Some inbound) g = [Delay 10; Client_stop].
Proof.
  intros Hcount. unfold handleClientRequests.
  destruct (read_request inbound false) eqn:Hread; [|reflexivity].
  apply read_request_spec in Hread.
  destruct Hread as [[Habs _] | Hblank]; [discriminate|].
  apply has_blank_line_two_LF in Hblank. lia.
Qed.

Lemma handleClientRequests_needs_two_LF_witness :
  handleClientRequests (Some unfinished_request) (largest_values 0) =
  [Delay 10; Client_stop].
Proof.
  apply (handleClientRequests_needs_two_LF (largest_values 0) unfinished_request).
  cbn. lia.
Defined.

(** X3. Once a request has been answered, what the client sends after it
    changes nothing: the request followed by any further bytes is answered
    in the same way. *)
Theorem handleClientRequests_answer_is_final
    (g : Globals) (inbound more : list ascii) :
  handleClientRequests (Some inbound) g =
    [Client_print (pageBuffer g); Delay 10; Client_stop] ->
  handleClientRequests (Some (inbound ++ more)) g =
    [Client_print (pageBuffer g); Delay 10; Client_stop].
Proof.
  unfold handleClientRequests.
  destruct (read_request inbound false) eqn:Hread; [|discriminate].
  intros _.
  assert (Hblank : has_blank_line inbound).
  { apply read_request_spec in Hread.
    destruct Hread as [[Habs _] | H]; [discriminate | exact H]. }
  destruct Hblank as (before & returns & after & -> & Hcr).
  assert (Hmore : read_request ((before ++ LF :: returns ++ LF :: after) ++ more) false = true).
  { apply read_request_spec. right.
    exists before, returns, (after ++ more). split; [|exact Hcr].
    rewrite <- app_assoc. cbn. now rewrite <- app_assoc. }
  now rewrite Hmore.
Qed.

Lemma handleClientRequests_answer_is_final_witness :
  handleClientRequests (Some (complete_request ++ unfinished_request)) (largest_values 0) =
  [Client_print (pageBuffer (largest_values 0)); Delay 10; Client_stop].
Proof.
  apply (handleClientRequests_answer_is_final (largest_values 0)
           complete_request unfinished_request).
  reflexivity.
Defined.

Lemma wait_for_ready_flag_set (rounds : list Round) (g : Globals) (events : list Event) :
  ready_assertion_event g = true ->
  wait_for_ready rounds g events = (g, events, Some rounds).
Proof. intros Hflag. destruct rounds; cbn [wait_for_ready]; now rewrite Hflag. Qed.

(** X4. Every round of the waiting loop that starts with the flag clear
    runs the dispatcher once on the pending client and yields once; the
    loop is left at the first round during which the flag is set, and the
    rounds after that one are not touched. *)
Theorem wait_for_ready_serves_every_round
    (quiet : list Round) (r : Round) (rest : list Round)
    (g : Globals) (events : list Event) :
  ready_assertion_event g = false ->
  Forall (fun q => ready_asserted q = false) quiet ->
  ready_asserted r = true ->
  wait_for_ready (quiet ++ r :: rest) g events =
    (set_ready_assertion_event true g,
     events ++ flat_map (round_events g) (quiet ++ [r]),
     Some rest).
Proof.
  intros Hflag Hquiet Hr. revert g events Hflag.
  induction Hquiet as [|q quiet Hq Hquiet IH]; intros g events Hflag.
  - cbn [app wait_for_ready flat_map]. rewrite Hflag, Hr.
    rewrite wait_for_ready_flag_set by (cbn; now rewrite Hflag).
    unfold interrupt, round_events. now rewrite Hflag, app_nil_r.
  - cbn [app wait_for_ready flat_map]. rewrite Hflag.
    rewrite IH
      by (unfold interrupt; cbn [ready_assertion_event set_ready_assertion_event];
          now rewrite Hflag, Hq).
    unfold round_events at 2. rewrite <- !app_assoc. reflexivity.
Qed.


Lemma wait_for_ready_serves_every_round_witness :
  wait_for_ready rounds_example started_example [] =
    (set_ready_assertion_event true started_example,
     [Client_print ""; Delay 10; Client_stop; Yield; Yield],
     Some []).
Proof.
  apply (wait_for_ready_serves_every_round
           [ {| pending_client := Some complete_request; ready_asserted := false |} ]
           {| pending_client := None; ready_asserted := true |} []
           started_example []).
  - reflexivity.
  - repeat constructor.
  - reflexivity.
Defined.

Lemma wait_for_ready_quiet (quiet : list Round) :
  forall g events,
    ready_assertion_event g = false ->
    Forall (fun q => ready_asserted q = false) quiet ->
    exists g',
      wait_for_ready quiet g events =
        (g', events ++ flat_map (round_events g) quiet, None).
Proof.
  induction quiet as [|q quiet IH]; intros g events Hflag Hquiet;
    cbn [wait_for_ready flat_map]; rewrite Hflag.
  - exists g. now rewrite app_nil_r.
  - inversion Hquiet as [|? ? Hq Hrest]; subst.
    destruct (IH (interrupt (ready_asserted q) g)
                 (events ++ handleClientRequests (pending_client q) g ++ [Yield]))
      as [g' Hg']; [|exact Hrest|].
    + unfold interrupt. cbn [ready_assertion_event set_ready_assertion_event].
      now rewrite Hflag, Hq.
    + exists g'. rewrite Hg'. unfold round_events at 2.
      rewrite <- !app_assoc. reflexivity.
Qed.

Section FurtherScheduler.

Context {hdr : Metriful_sensor_h} {wifi : WiFi_functions_h} {regs : Sensor_registers}.

(** X5. As long as the sensor does not signal new data, [loop()] does not
    return and does nothing but serve the clients: it runs the dispatcher
    and yields once per round, reads no register of the sensor and does
    not touch the WiFi link. *)
Theorem loop_only_serves_until_ready
    (rounds : list Round) (dev : Acquisition) (g : Globals) :
  ready_assertion_event g = false ->
  Forall (fun q => ready_asserted q = false) rounds ->
  exists g', loop rounds dev g = Blocked g' (flat_map (round_events g) rounds).
Proof.
  intros Hflag Hquiet.
  destruct (wait_for_ready_quiet rounds g [] Hflag Hquiet) as [g' Hwait].
  exists g'. unfold loop. now rewrite Hwait.
Qed.

Lemma check_WiFi_keeps (dev : Acquisition) (g : Globals) :
  same_inputs g (fst (check_WiFi dev g)) /\
  pageBuffer (fst (check_WiFi dev g)) = pageBuffer g.
Proof.
  unfold check_WiFi.
  destruct (negb (createWifiNetwork g)); [|repeat split].
  destruct (negb (wifiStatus dev =? WL_CONNECTED)); repeat split.
Qed.

Lemma page_text_reads_inputs (g1 g2 : Globals) :
  same_inputs g1 g2 -> page_text g1 = page_text g2.
Proof.
  intros (Hr & Ha & Hq & Hl & Hp & Hs).
  unfold page_text, page_body, air_text, page_tail.
  now rewrite Hr, Ha, Hq, Hl, Hp, Hs.
Qed.

(** What [loop()] leaves behind when it returns: the inputs of the page are
    those of the readout, the page is their page, and the flag is as
    [check_WiFi] leaves it. *)
Lemma loop_result (rounds : list Round) (dev : Acquisition)
    (g gw : Globals) (evw : list Event) (rest : list Round) :
  header_ok ->
  wait_for_ready rounds g [] = (gw, evw, Some rest) ->
  records_in_range (fst (read_data dev gw)) ->
  exists g1 g' events,
    loop rounds dev g = Returned g' events /\
    g' = fst (check_WiFi dev g1) /\
    same_inputs (fst (read_data dev g)) g1 /\
    same_inputs (fst (read_data dev g)) g' /\
    pageBuffer g' = page_text (fst (read_data dev g)) /\
    createWifiNetwork g1 = createWifiNetwork g /\
    ready_assertion_event g1 = ready_during_readout dev.
Proof.
  intros Hh Hwait Hrange.
  destruct (loop_returns rounds dev g gw evw rest Hh Hwait Hrange)
    as (g0 & l & Hsame & Hmode & _ & Hflag & _ & _ & Hloop).
  destruct (wait_for_ready_spec rounds g []) as (b & more & Hg & _).
  rewrite Hwait in Hg. cbn [fst] in Hg. subst gw.
  destruct (read_data_flag dev g b) as (Hgw & _).
  pose proof (same_inputs_trans _ _ _ Hgw Hsame) as Hin.
  set (g1 := with_buffers l (page_text g0) g0) in *.
  assert (Hin1 : same_inputs (fst (read_data dev g)) g1) by exact Hin.
  destruct (check_WiFi_keeps dev g1) as [Hkeep Hpage].
  exists g1, (fst (check_WiFi dev g1)). eexists.
  split; [exact Hloop|]. split; [reflexivity|]. split; [exact Hin1|].
  split; [exact (same_inputs_trans _ _ _ Hin1 Hkeep)|].
  split; [rewrite Hpage; symmetry; now apply page_text_reads_inputs|].
  split; [exact Hmode | exact Hflag].
Qed.

(** X6. When [loop()] returns, [pageBuffer] holds the page of the records
    that have just been read, and this page, whole, is what every client
    of the following wait is answered with. *)
Theorem next_wait_serves_assembled_page
    (rounds rounds' : list Round) (dev : Acquisition)
    (g gw : Globals) (evw : list Event) (rest : list Round) :
  header_ok ->
  wait_for_ready rounds g [] = (gw, evw, Some rest) ->
  records_in_range (fst (read_data dev gw)) ->
  exists g' events,
    loop rounds dev g = Returned g' events /\
    pageBuffer g' = page_text (fst (read_data dev g)) /\
    handleClientRequests (Some complete_request) g' =
      [Client_print (page_text (fst (read_data dev g))); Delay 10; Client_stop] /\
    Forall (waiting_event (page_text (fst (read_data dev g))))
      (snd (fst (wait_for_ready rounds' g' []))).
Proof.
  intros Hh Hwait Hrange.
  destruct (loop_result rounds dev g gw evw rest Hh Hwait Hrange)
    as (g1 & g' & events & Hloop & _ & _ & _ & Hpage & _).
  exists g', events. split; [exact Hloop|]. split; [exact Hpage|].
  split.
  - unfold handleClientRequests. now rewrite Hpage.
  - destruct (wait_for_ready_spec rounds' g' []) as (b & more & _ & Hev & Hmore & _).
    rewrite Hev, <- Hpage. exact Hmore.
Qed.

(** X7. When [loop()] returns, the air, air-quality, light and sound records
    hold what their [ReceiveI2C] delivered; the particle record does so
    only when a particle sensor is configured and is otherwise left as it
    was, and the refresh period is not changed. *)
Theorem loop_updates_records
    (rounds : list Round) (dev : Acquisition)
    (g gw : Globals) (evw : list Event) (rest : list Round) :
  header_ok ->
  wait_for_ready rounds g [] = (gw, evw, Some rest) ->
  records_in_range (fst (read_data dev gw)) ->
  exists g' events,
    loop rounds dev g = Returned g' events /\
    airData g' = received_air dev (airData g) /\
    airQualityData g' = received_air_quality dev (airQualityData g) /\
    lightData g' = received_light dev (lightData g) /\
    soundData g' = received_sound dev (soundData g) /\
    particleData g' =
      (if PARTICLE_SENSOR =? PARTICLE_SENSOR_OFF then particleData g
       else received_particle dev (particleData g)) /\
    refreshPeriodSeconds g' = refreshPeriodSeconds g.
Proof.
  intros Hh Hwait Hrange.
  destruct (loop_result rounds dev g gw evw rest Hh Hwait Hrange)
    as (g1 & g' & events & Hloop & _ & _ & Hin & _).
  exists g', events. split; [exact Hloop|].
  destruct Hin as (Hr & Ha & Hq & Hl & Hp & Hs).
  rewrite <- Hr, <- Ha, <- Hq, <- Hl, <- Hp, <- Hs.
  unfold read_data.
  destruct (PARTICLE_SENSOR =? PARTICLE_SENSOR_OFF); repeat split.
Qed.

(** X8. A ready signal that arrives during the readout is not lost: when
    the link is not re-established in that cycle (the sketch hosts the
    network, or the link is up), the flag is still set when [loop()]
    returns, and the next call starts its acquisition at once, without a
    round of waiting and without serving a client. *)
Theorem ready_during_readout_is_kept
    (rounds : list Round) (dev : Acquisition)
    (g gw : Globals) (evw : list Event) (rest : list Round) :
  header_ok ->
  wait_for_ready rounds g [] = (gw, evw, Some rest) ->
  records_in_range (fst (read_data dev gw)) ->
  ready_during_readout dev = true ->
  createWifiNetwork g = true \/ wifiStatus dev = WL_CONNECTED ->
  exists g' events,
    loop rounds dev g = Returned g' events /\
    ready_assertion_event g' = true /\
    forall rounds', wait_for_ready rounds' g' [] = (g', [], Some rounds').
Proof.
  intros Hh Hwait Hrange Hready Hlink.
  destruct (loop_result rounds dev g gw evw rest Hh Hwait Hrange)
    as (g1 & g' & events & Hloop & Hg' & _ & _ & _ & Hmode & Hflag).
  assert (Hset : ready_assertion_event g' = true).
  { rewrite Hg'. unfold check_WiFi. rewrite Hmode.
    destruct Hlink as [-> | ->].
    - cbn. now rewrite Hflag.
    - rewrite Z.eqb_refl. destruct (createWifiNetwork g); cbn; now rewrite Hflag. }
  exists g', events. split; [exact Hloop|]. split; [exact Hset|].
  intros rounds'. now apply wait_for_ready_flag_set.
Qed.

(** X9. [setup()] stops for good exactly when the sketch is to host the
    network and the access point cannot be created; it has then reported
    the failure on the serial port, and has neither started the server nor
    written a register of the sensor. *)
Theorem setup_halts_without_access_point (dev : Startup) (g : Globals) :
  (createWifiNetwork g = true /\ createWiFiAP_ok dev = false) <->
  setup dev g =
    Blocked g [SensorHardwareSetup I2C_ADDRESS;
               CreateWiFiAP SSID password (theIP g);
               Serial_println "Failed to create access point."].
Proof.
  split.
  - intros [Hmode Hap]. unfold setup. now rewrite Hmode, Hap.
  - intros Hsetup.
    destruct (createWifiNetwork g) eqn:Hmode, (createWiFiAP_ok dev) eqn:Hap;
      try (split; reflexivity);
      (destruct (setup_returns dev g) as (ip & events & Hret);
       [rewrite Hmode; first [discriminate | intros _; exact Hap]
       | rewrite Hret in Hsetup; discriminate]).
Qed.

(** X15. One call of [loop()] that leaves its waiting loop does, after the
    rounds of waiting, in this order and nothing else: the reads of the
    air, air-quality, light and sound registers, the read of the particle
    register when a particle sensor is configured, and the check of the
    link with, when the link is down, the reconnection and its report. *)
Theorem loop_trace
    (rounds : list Round) (dev : Acquisition)
    (g gw : Globals) (evw : list Event) (rest : list Round) :
  header_ok ->
  wait_for_ready rounds g [] = (gw, evw, Some rest) ->
  records_in_range (fst (read_data dev gw)) ->
  exists g',
    loop rounds dev g =
      Returned g'
        (evw ++
         [ReceiveI2C I2C_ADDRESS AIR_DATA_READ AIR_DATA_BYTES;
          ReceiveI2C I2C_ADDRESS AIR_QUALITY_DATA_READ AIR_QUALITY_DATA_BYTES;
          ReceiveI2C I2C_ADDRESS LIGHT_DATA_READ LIGHT_DATA_BYTES;
          ReceiveI2C I2C_ADDRESS SOUND_DATA_READ SOUND_DATA_BYTES] ++
         (if PARTICLE_SENSOR =? PARTICLE_SENSOR_OFF then []
          else [ReceiveI2C I2C_ADDRESS PARTICLE_DATA_READ PARTICLE_DATA_BYTES]) ++
         (if createWifiNetwork g then []
          else if wifiStatus dev =? WL_CONNECTED then [WiFi_status]
          else [WiFi_status;
                Serial_print "Wifi status: ";
                Serial_println (interpret_WiFi_status (wifiStatus dev));
                ConnectToWiFi SSID password;
                WiFi_localIP;
                Serial_print "View your page at http://";
                Serial_println_IP (reconnect_localIP dev)])).
Proof.
  intros Hh Hwait Hrange.
  destruct (loop_returns rounds dev g gw evw rest Hh Hwait Hrange)
    as (g0 & l & _ & Hmode & _ & _ & _ & _ & Hloop).
  eexists. rewrite Hloop. f_equal. rewrite <- app_assoc. f_equal.
  unfold read_data, check_WiFi.
  change (createWifiNetwork (with_buffers l (page_text g0) g0))
    with (createWifiNetwork g0).
  rewrite Hmode.
  destruct (PARTICLE_SENSOR =? PARTICLE_SENSOR_OFF), (createWifiNetwork g);
    try destruct (wifiStatus dev =? WL_CONNECTED); reflexivity.
Qed.

End FurtherScheduler.

Lemma late_signal_records_in_range (g : Globals) :
  refreshPeriodSeconds g = 3 ->
  records_in_range (hdr := MS430 1)
    (fst (read_data (hdr := MS430 1) (regs := MS430_registers) late_signal_example g)).
Proof.
  intros Hr.
  repeat constructor; cbn; rewrite ?Hr;
    unfold uint8, uint16, uint32, fr_1dp, fr_2dp in *; lia.
Qed.

Lemma loop_only_serves_until_ready_witness :
  exists g',
    loop (hdr := MS430 1) (wifi := WiFiNINA) (regs := MS430_registers)
      [ {| pending_client := Some complete_request; ready_asserted := false |};
        {| pending_client := None; ready_asserted := false |} ]
      (acquisition_example 6) started_example =
    Blocked g' [Client_print ""; Delay 10; Client_stop; Yield; Yield].
Proof.
  apply (loop_only_serves_until_ready
           (hdr := MS430 1) (wifi := WiFiNINA) (regs := MS430_registers)
           [ {| pending_client := Some complete_request; ready_asserted := false |};
             {| pending_client := None; ready_asserted := false |} ]
           (acquisition_example 6) started_example).
  - reflexivity.
  - repeat constructor.
Defined.

Lemma next_wait_serves_assembled_page_witness :
  exists g' events,
    loop (hdr := MS430 1) (wifi := WiFiNINA) (regs := MS430_registers)
      rounds_example (acquisition_example 3) started_example = Returned g' events /\
    strlen (pageBuffer g') = 2276%nat.
Proof.
  edestruct (next_wait_serves_assembled_page
               (hdr := MS430 1) (wifi := WiFiNINA) (regs := MS430_registers)
               rounds_example [] (acquisition_example 3) started_example)
    as (g' & events & Hloop & Hpage & _).
  - apply MS430_header_ok.
  - reflexivity.
  - apply example_records_in_range. reflexivity.
  - exists g', events. split; [exact Hloop|]. rewrite Hpage. reflexivity.
Defined.

Lemma loop_updates_records_witness :
  exists g' events,
    loop (hdr := MS430 0) (wifi := WiFiNINA) (regs := MS430_registers)
      rounds_example (acquisition_example 3)
      (set_refreshPeriodSeconds 3 (initial_globals (hdr := MS430 0) 0 true)) =
      Returned g' events /\
    airData g' = airData (largest_values 1) /\
    particleData g' = particleData (initial_globals (hdr := MS430 0) 0 true).
Proof.
  edestruct (loop_updates_records
               (hdr := MS430 0) (wifi := WiFiNINA) (regs := MS430_registers)
               rounds_example (acquisition_example 3)
               (set_refreshPeriodSeconds 3 (initial_globals (hdr := MS430 0) 0 true)))
    as (g' & events & Hloop & Hair & _ & _ & _ & Hparticle & _).
  - apply MS430_header_ok.
  - reflexivity.
  - repeat constructor; cbn; unfold uint8, uint16, uint32, fr_1dp, fr_2dp; lia.
  - exists g', events. split; [exact Hloop|]. split; [exact Hair | exact Hparticle].
Defined.

Lemma ready_during_readout_is_kept_witness :
  exists g' events,
    loop (hdr := MS430 1) (wifi := WiFiNINA) (regs := MS430_registers)
      rounds_example late_signal_example started_example = Returned g' events /\
    ready_assertion_event g' = true.
Proof.
  edestruct (ready_during_readout_is_kept
               (hdr := MS430 1) (wifi := WiFiNINA) (regs := MS430_registers)
               rounds_example late_signal_example started_example)
    as (g' & events & Hloop & Hflag & _).
  - apply MS430_header_ok.
  - reflexivity.
  - apply late_signal_records_in_range. reflexivity.
  - reflexivity.
  - right. reflexivity.
  - exists g', events. split; [exact Hloop | exact Hflag].
Defined.

Lemma loop_trace_witness :
  exists g',
    loop (hdr := MS430 1) (wifi := WiFiNINA) (regs := MS430_registers)
      rounds_example (acquisition_example 3) started_example =
    Returned g'
      [Client_print ""; Delay 10; Client_stop; Yield; Yield;
       ReceiveI2C 113 16 12; ReceiveI2C 113 17 10; ReceiveI2C 113 18 5;
       ReceiveI2C 113 19 18; ReceiveI2C 113 20 6; WiFi_status].
Proof.
  edestruct (loop_trace (hdr := MS430 1) (wifi := WiFiNINA) (regs := MS430_registers)
               rounds_example (acquisition_example 3) started_example)
    as [g' Hloop].
  - apply MS430_header_ok.
  - reflexivity.
  - apply example_records_in_range. reflexivity.
  - exists g'. exact Hloop.
Defined.

Local Open Scope string_scope.
Local Open Scope Z_scope.

(** ** The page assembler *)

Lemma seq_fails_r (a b : stmt) :
  (forall g, b g = None) -> forall g, (a ;; b)%stmt g = None.
Proof. intros Hb g. unfold seq. destruct (a g); [apply Hb | reflexivity]. Qed.

Lemma seq_fails_l (a b : stmt) (g : Globals) :
  a g = None -> (a ;; b)%stmt g = None.
Proof. intros Ha. unfold seq. now rewrite Ha. Qed.

Lemma seq_last (P : Globals -> Prop) (a b : stmt) :
  (forall g g', b g = Some g' -> P g') ->
  forall g g', (a ;; b)%stmt g = Some g' -> P g'.
Proof.
  intros Hb g g'. unfold seq. destruct (a g) as [g1|]; [apply Hb | discriminate].
Qed.

Lemma only_buffers_seq (a b : stmt) :
  only_buffers a -> only_buffers b -> only_buffers (a ;; b)%stmt.
Proof.
  intros Ha Hb g g'. unfold seq. destruct (a g) as [g1|] eqn:Hg1; [|discriminate].
  intros Hg'. pose proof (Hb _ _ Hg') as E1. pose proof (Ha _ _ Hg1) as E2.
  remember (lineBuffer g') as l' eqn:Hl. remember (pageBuffer g') as p' eqn:Hp.
  rewrite E1, E2. reflexivity.
Qed.

Lemma only_buffers_sprintf_pageBuffer (f : Globals -> string) :
  only_buffers (sprintf_pageBuffer f).
Proof.
  intros g g'. unfold sprintf_pageBuffer.
  destruct (fits _ _); [|discriminate]. now intros [= <-].
Qed.

Lemma only_buffers_sprintf_lineBuffer (f : Globals -> string) :
  only_buffers (sprintf_lineBuffer f).
Proof.
  intros g g'. unfold sprintf_lineBuffer.
  destruct (fits _ _); [|discriminate]. now intros [= <-].
Qed.

Lemma only_buffers_strcat (lit : string) : only_buffers (strcat_pageBuffer lit).
Proof.
  intros g g'. unfold strcat_pageBuffer.
  destruct (fits _ _); [|discriminate]. now intros [= <-].
Qed.

Lemma only_buffers_strcat_lineBuffer : only_buffers strcat_pageBuffer_lineBuffer.
Proof. intros g g'. apply only_buffers_strcat. Qed.

Lemma only_buffers_skip (g g' : Globals) :
  Some g = Some g' -> g' = with_buffers (lineBuffer g') (pageBuffer g') g.
Proof. intros [= <-]. now destruct g. Qed.

Ltac only_buffers :=
  repeat first
    [ apply only_buffers_seq
    | apply only_buffers_sprintf_pageBuffer
    | apply only_buffers_sprintf_lineBuffer
    | apply only_buffers_strcat_lineBuffer
    | apply only_buffers_strcat ].

Ltac only_buffers_at g g' :=
  match goal with
  | |- ?s g = Some g' -> _ =>
      let K := fresh in enough (K : only_buffers s) by exact (K g g')
  end.

Section FurtherAssembling.

Context {hdr : Metriful_sensor_h}.

Lemma only_buffers_air_quality_section : only_buffers air_quality_section.
Proof.
  intros g g'. unfold air_quality_section.
  destruct (AQI_accuracy (airQualityData g) =? 0);
    only_buffers_at g g'; only_buffers.
Qed.

Lemma only_buffers_sound_band_rows (fuel : nat) :
  forall i, only_buffers (sound_band_rows fuel i).
Proof.
  induction fuel as [|fuel IH]; intros i g g'; cbn [sound_band_rows];
    [discriminate|].
  destruct (i <? SOUND_FREQ_BANDS); [|apply only_buffers_skip].
  destruct (nth_error sound_band_mids_Hz (Z.to_nat i)); [|discriminate].
  destruct (nth_error (SPL_bands_dB_int (soundData g)) (Z.to_nat i)); [|discriminate].
  destruct (nth_error (SPL_bands_dB_fr_1dp (soundData g)) (Z.to_nat i));
    [|discriminate].
  only_buffers_at g g'. only_buffers. apply IH.
Qed.

Lemma only_buffers_particle_section : only_buffers particle_section.
Proof.
  intros g g'. unfold particle_section.
  destruct (negb (PARTICLE_SENSOR =? PARTICLE_SENSOR_OFF));
    [|apply only_buffers_skip].
  only_buffers_at g g'. only_buffers.
  intros g1 g1'. destruct particle_units; [|discriminate].
  only_buffers_at g1 g1'. only_buffers.
Qed.

Lemma only_buffers_assembleWebPage : only_buffers assembleWebPage.
Proof.
  unfold assembleWebPage. only_buffers.
  - apply only_buffers_air_quality_section.
  - apply only_buffers_sound_band_rows.
  - apply only_buffers_particle_section.
Qed.

(** X10. Whatever the records hold, a run of [assembleWebPage] that does not
    overrun an array changes nothing but [lineBuffer] and [pageBuffer]: the
    settings, the address, the five records and the ready flag are as
    before, and the page it leaves fits [pageBuffer] with its NUL. *)
Theorem assembleWebPage_changes_only_buffers (g g' : Globals) :
  assembleWebPage g = Some g' ->
  cycle_period g' = cycle_period g /\
  createWifiNetwork g' = createWifiNetwork g /\
  theIP g' = theIP g /\
  refreshPeriodSeconds g' = refreshPeriodSeconds g /\
  airData g' = airData g /\
  airQualityData g' = airQualityData g /\
  lightData g' = lightData g /\
  particleData g' = particleData g /\
  soundData g' = soundData g /\
  ready_assertion_event g' = ready_assertion_event g /\
  (strlen (pageBuffer g') + 1 <= pageBuffer_size)%nat.
Proof.
  intros Hrun. pose proof (only_buffers_assembleWebPage g g' Hrun) as Hg'.
  assert (Hfit : (strlen (pageBuffer g') + 1 <= pageBuffer_size)%nat).
  { revert g g' Hrun Hg'. intros g0 g1 Hrun _. revert g0 g1 Hrun.
    unfold assembleWebPage.
    repeat apply (seq_last (fun g' => (strlen (pageBuffer g') + 1 <= pageBuffer_size)%nat)).
    intros g0 g1. unfold strcat_pageBuffer.
    destruct (fits _ _) eqn:Hfits; [|discriminate].
    intros [= <-]. apply fits_spec in Hfits. cbn [pageBuffer set_pageBuffer]. lia. }
  rewrite Hg'. repeat split. exact Hfit.
Qed.

End FurtherAssembling.

Lemma assembleWebPage_changes_only_buffers_witness :
  exists g',
    @assembleWebPage (MS430 1) (with_buffers "stale line" "stale page" (largest_values 1)) =
      Some g' /\
    airData g' = airData (largest_values 1).
Proof.
  edestruct (@assembleWebPage_runs (MS430 1) (MS430_header_ok 1)
               (with_buffers "stale line" "stale page" (largest_values 1)))
    as [l Hrun].
  - repeat constructor; cbn; unfold uint8, uint16, uint32, fr_1dp, fr_2dp; lia.
  - eexists. split; [exact Hrun|].
    apply (@assembleWebPage_changes_only_buffers (MS430 1) _ _ Hrun).
Defined.

Section FurtherPage.

Context {hdr : Metriful_sensor_h}.

Lemma band_rows_text_in_order (s : SoundData_t) (n : nat) :
  forall first,
    band_rows_text n (Z.of_nat first) s =
    fold_right append ""
      (map (fun k => band_row (Z.of_nat k)
                       (nth k sound_band_mids_Hz 0)
                       (nth k (SPL_bands_dB_int s) 0)
                       (nth k (SPL_bands_dB_fr_1dp s) 0))
           (List.seq first n)).
Proof.
  induction n as [|n IH]; intros first; [reflexivity|].
  cbn [band_rows_text List.seq map fold_right].
  rewrite Nat2Z.id. f_equal.
  replace (Z.of_nat first + 1) with (Z.of_nat (S first)) by lia. apply IH.
Qed.

(** X11. The Sound section holds, between the row of the A-weighted level
    and the row of the peak amplitude, one row per frequency band, in the
    order of the bands: row [k] (counted from 0) is labelled with the band
    number [k + 1] and the [k]-th midpoint of [sound_band_mids_Hz] and
    shows the [k]-th level of the sound record. *)
Theorem sound_band_rows_in_order (g : Globals) :
  header_ok -> records_in_range g ->
  exists g' before after,
    assembleWebPage g = Some g' /\
    pageBuffer g' =
      before ++ "<p><h2>Sound Data</h2><table>" ++ spl_row (soundData g) ++
      fold_right append ""
        (map (fun k =>
                "<tr><td>Frequency Band " ++ fmt_u (Z.of_nat k + 1) ++ " (" ++
                fmt_u (nth k sound_band_mids_Hz 0) ++ " Hz) SPL</td>" ++
                "<td id='v3'>" ++ fmt_u (nth k (SPL_bands_dB_int (soundData g)) 0) ++
                "." ++ fmt_u (nth k (SPL_bands_dB_fr_1dp (soundData g)) 0) ++
                "</td><td>dB</td></tr>")
             (List.seq 0 (Z.to_nat SOUND_FREQ_BANDS))) ++
      peak_row (soundData g) ++ "<p><h2>Light Data</h2><table>" ++ after.
Proof.
  intros Hh Hg.
  destruct (assembleWebPage_runs Hh g Hg) as [l Hrun].
  exists (with_buffers l (page_text g) g).
  exists (http_header (refreshPeriodSeconds g) ++ html_head ++ air_text g ++
          "<p><h2>Air Quality Data</h2>" ++ air_quality_text (airQualityData g)).
  exists (illuminance_row (lightData g) ++ white_row (lightData g) ++
          particle_text (particleData g) ++ "</body></html>").
  split; [exact Hrun|].
  change (pageBuffer (with_buffers l (page_text g) g)) with (page_text g).
  unfold page_text, page_body, page_tail, sound_text.
  rewrite (band_rows_text_in_order (soundData g) (Z.to_nat SOUND_FREQ_BANDS) 0).
  fold (band_row). rewrite !append_assoc. reflexivity.
Qed.

(** X13. With the SDS011 selected, a unit symbol of seven bytes or more does
    not fit [unitsBuffer] with its NUL: the [strcpy] runs past the end of
    the array on every run of [assembleWebPage], whatever the records
    hold. *)
Theorem SDS011_symbol_overruns_unitsBuffer :
  PARTICLE_SENSOR = PARTICLE_SENSOR_SDS011 ->
  PARTICLE_SENSOR_SDS011 <> PARTICLE_SENSOR_OFF ->
  PARTICLE_SENSOR_SDS011 <> PARTICLE_SENSOR_PPD42 ->
  (unitsBuffer_size <= strlen SDS011_UNIT_SYMBOL)%nat ->
  particle_units = None /\ forall g, assembleWebPage g = None.
Proof.
  intros Hsel Hoff Hppd Hlong.
  assert (Hunits : particle_units = None).
  { unfold particle_units, strcpy_unitsBuffer. rewrite Hsel, Z.eqb_refl.
    destruct (Z.eqb_spec PARTICLE_SENSOR_SDS011 PARTICLE_SENSOR_PPD42);
      [contradiction|].
    destruct (fits SDS011_UNIT_SYMBOL unitsBuffer_size) eqn:Hfits; [|reflexivity].
    apply fits_spec in Hfits. lia. }
  split; [exact Hunits|].
  unfold assembleWebPage. do 24 apply seq_fails_r.
  intros g. apply seq_fails_l. unfold particle_section. rewrite Hsel.
  destruct (Z.eqb_spec PARTICLE_SENSOR_SDS011 PARTICLE_SENSOR_OFF); [contradiction|].
  cbn [negb]. revert g. do 3 apply seq_fails_r. intros g. now rewrite Hunits.
Qed.

End FurtherPage.

Lemma sound_band_rows_in_order_witness :
  exists g' before after,
    @assembleWebPage (MS430 0) (largest_values 0) = Some g' /\
    pageBuffer g' =
      before ++ "<p><h2>Sound Data</h2><table>" ++ spl_row (soundData (largest_values 0)) ++
      ("<tr><td>Frequency Band 1 (125 Hz) SPL</td><td id='v3'>255.9</td><td>dB</td></tr>" ++
       "<tr><td>Frequency Band 2 (250 Hz) SPL</td><td id='v3'>255.9</td><td>dB</td></tr>" ++
       "<tr><td>Frequency Band 3 (500 Hz) SPL</td><td id='v3'>255.9</td><td>dB</td></tr>" ++
       "<tr><td>Frequency Band 4 (1000 Hz) SPL</td><td id='v3'>255.9</td><td>dB</td></tr>" ++
       "<tr><td>Frequency Band 5 (2000 Hz) SPL</td><td id='v3'>255.9</td><td>dB</td></tr>" ++
       "<tr><td>Frequency Band 6 (4000 Hz) SPL</td><td id='v3'>255.9</td><td>dB</td></tr>") ++
      peak_row (soundData (largest_values 0)) ++ "<p><h2>Light Data</h2><table>" ++ after.
Proof.
  destruct (@sound_band_rows_in_order (MS430 0) (largest_values 0)
              (MS430_header_ok 0)
              (largest_values_in_range 0 0 ltac:(unfold uint8; lia)))
    as (g' & before & after & Hrun & Hpage).
  exists g', before, after. split; [exact Hrun | exact Hpage].
Defined.

Lemma SDS011_symbol_overruns_unitsBuffer_witness :
  @assembleWebPage (with_SDS011_symbol "ug/m**3") (largest_values 1) = None.
Proof.
  apply (@SDS011_symbol_overruns_unitsBuffer (with_SDS011_symbol "ug/m**3")).
  - reflexivity.
  - discriminate.
  - discriminate.
  - unfold unitsBuffer_size. cbn. lia.
Defined.

(** ** The unit symbols in UTF-8 *)

Lemma MS430_UTF8_header_ok (particle_sensor : Z) :
  particle_sensor <> 2 -> @header_ok (MS430_UTF8 particle_sensor).
Proof.
  intros Hsel. constructor; cbn.
  - lia.
  - lia.
  - reflexivity.
  - repeat constructor; unfold uint16; lia.
  - intros a. unfold uint8, fr_1dp.
    pose proof (Z.mod_pos_bound (T_C_int_with_sign a) 128 ltac:(lia)).
    pose proof (Z.mod_pos_bound (T_C_fr_1dp a) 10 ltac:(lia)).
    repeat split; lia.
  - lia.
  - lia.
  - intros H. contradiction.
  - lia.
  - intros a. repeat (destruct (_ <? _); [cbn; lia|]). cbn. lia.
Qed.

Lemma records_in_range_MS430_UTF8 (a b : Z) (g : Globals) :
  @records_in_range (MS430_UTF8 a) g -> @records_in_range (MS430_UTF8 b) g.
Proof.
  intros [Hr Ha Hq Hl [Hsi Hsf Hli Hbi Hlf Hbf Hpi Hpf] Hp].
  constructor; try assumption. constructor; assumption.
Qed.




(** With the SDS011 selected the symbol does not fit [unitsBuffer]. *)
Lemma assembleWebPage_MS430_UTF8_SDS011 (g : Globals) :
  @assembleWebPage (MS430_UTF8 2) g = None.
Proof.
  revert g. unfold assembleWebPage. do 24 apply seq_fails_r.
  intros g. apply seq_fails_l. unfold particle_section.
  change (negb (PARTICLE_SENSOR =? PARTICLE_SENSOR_OFF)) with true. cbv iota.
  revert g. do 3 apply seq_fails_r. reflexivity.
Qed.


Lemma largest_values_in_range_MS430_UTF8 (particle_sensor : Z) :
  @records_in_range (MS430_UTF8 particle_sensor) (largest_values 1).
Proof.
  repeat constructor; cbn; unfold uint8, uint16, uint32, fr_1dp, fr_2dp in *; lia.
Qed.


(** C5. With the unit symbols of the library in UTF-8: when the
    particulate sensor is switched off the page closes right after the
    Light section, and with the PPD42 the Particulate section follows the
    Light section with the unit label [ppL]; but with the SDS011 no page
    with a Particulate section is ever produced, whatever the records
    hold: the unit symbol is seven bytes long, its copy into [unitsBuffer]
    runs past the end of the array, and [assembleWebPage] does not
    complete. *)
Theorem SDS011_section_is_never_assembled (g : Globals) :
  @records_in_range (MS430_UTF8 2) g ->
  let p := particleData g in
  (exists g' before,
     @assembleWebPage (MS430_UTF8 0) g = Some g' /\
     pageBuffer g' =
       before ++ "<p><h2>Light Data</h2><table>" ++ illuminance_row (lightData g) ++
       white_row (lightData g) ++ "</body></html>") /\
  (exists g' before,
     @assembleWebPage (MS430_UTF8 1) g = Some g' /\
     pageBuffer g' =
       before ++ "<p><h2>Light Data</h2><table>" ++ illuminance_row (lightData g) ++
       white_row (lightData g) ++
       "<p><h2>Air Particulate Data</h2><table>" ++
       ("<tr><td>Sensor Duty Cycle</td><td id='v5'>" ++
        fmt_u (duty_cycle_pc_int p) ++ "." ++ fmt_02u (duty_cycle_pc_fr_2dp p) ++
        "</td><td>%</td></tr>") ++
       ("<tr><td>Particle Concentration</td>" ++ "<td id='v5'>" ++
        fmt_u (concentration_int p) ++ "." ++ fmt_02u (concentration_fr_2dp p) ++
        "</td><td>" ++ "ppL" ++ "</td></tr></table></p>") ++
       "</body></html>") /\
  strlen (@SDS011_UNIT_SYMBOL (MS430_UTF8 2)) = unitsBuffer_size /\
  @particle_units (MS430_UTF8 2) = None /\
  (forall g0, @particle_section (MS430_UTF8 2) g0 = None) /\
  @assembleWebPage (MS430_UTF8 2) g = None.
Proof.
  intros Hg p.
  pose proof (records_in_range_MS430_UTF8 2 0 g Hg) as Hg0.
  pose proof (records_in_range_MS430_UTF8 2 1 g Hg) as Hg1.
  destruct (@assembleWebPage_runs (MS430_UTF8 0) (MS430_UTF8_header_ok 0 ltac:(lia)) g Hg0)
    as [l0 Hrun0].
  destruct (@assembleWebPage_runs (MS430_UTF8 1) (MS430_UTF8_header_ok 1 ltac:(lia)) g Hg1)
    as [l1 Hrun1].
  split; [|split; [|split; [reflexivity|split; [reflexivity|split]]]].
  - eexists.
    exists (http_header (refreshPeriodSeconds g) ++ html_head ++
            @air_text (MS430_UTF8 0) g ++ "<p><h2>Air Quality Data</h2>" ++
            @air_quality_text (MS430_UTF8 0) (airQualityData g) ++
            "<p><h2>Sound Data</h2><table>" ++ spl_row (soundData g) ++
            @band_rows_text (MS430_UTF8 0) 6 0 (soundData g) ++ peak_row (soundData g)).
    split; [exact Hrun0|].
    change (pageBuffer (with_buffers l0 (@page_text (MS430_UTF8 0) g) g))
      with (@page_text (MS430_UTF8 0) g).
    unfold page_text, page_body, page_tail, sound_text, particle_text.
    change (Z.to_nat SOUND_FREQ_BANDS) with 6%nat.
    change (negb (PARTICLE_SENSOR =? PARTICLE_SENSOR_OFF)) with false. cbv iota.
    now rewrite !append_assoc.
  - eexists.
    exists (http_header (refreshPeriodSeconds g) ++ html_head ++
            @air_text (MS430_UTF8 1) g ++ "<p><h2>Air Quality Data</h2>" ++
            @air_quality_text (MS430_UTF8 1) (airQualityData g) ++
            "<p><h2>Sound Data</h2><table>" ++ spl_row (soundData g) ++
            @band_rows_text (MS430_UTF8 1) 6 0 (soundData g) ++ peak_row (soundData g)).
    split; [exact Hrun1|].
    change (pageBuffer (with_buffers l1 (@page_text (MS430_UTF8 1) g) g))
      with (@page_text (MS430_UTF8 1) g).
    unfold page_text, page_body, page_tail, sound_text, particle_text.
    change (Z.to_nat SOUND_FREQ_BANDS) with 6%nat.
    change (negb (PARTICLE_SENSOR =? PARTICLE_SENSOR_OFF)) with true.
    change (@units_label (MS430_UTF8 1)) with "ppL". cbv iota.
    unfold duty_cycle_row, concentration_row. fold p.
    now rewrite !append_assoc.
  - unfold particle_section.
    change (negb (PARTICLE_SENSOR =? PARTICLE_SENSOR_OFF)) with true. cbv iota.
    do 3 apply seq_fails_r. reflexivity.
  - apply assembleWebPage_MS430_UTF8_SDS011.
Qed.

Lemma SDS011_section_is_never_assembled_witness :
  @assembleWebPage (MS430_UTF8 2) (largest_values 1) = None /\
  exists g', @assembleWebPage (MS430_UTF8 1) (largest_values 1) = Some g'.
Proof.
  destruct (SDS011_section_is_never_assembled (largest_values 1)
              (largest_values_in_range_MS430_UTF8 2))
    as (_ & (g' & before & Hrun & Hpage) & _ & _ & _ & Hnone).
  split; [exact Hnone|].
  exists g'. exact Hrun.
Defined.

Local Open Scope list_scope.

(** ** The link check comes after the assembly *)

(** C7. Once the waiting loop has seen the flag, [loop()] reads the
    records and assembles the page from them before it touches the WiFi
    link: nothing up to and including the readout is a link event; if the
    assembly overruns an array the run ends there, with no link event at
    all; and if the assembly completes, the page in [pageBuffer] is the
    one just assembled and [loop()] returns after the link check.  In that
    check, when the sketch joined a network, [WiFi.status()] is read, and
    when the answer is not [WL_CONNECTED] the status is printed,
    [connectToWiFi] is called and the new address is stored and printed;
    when the sketch hosts its own network the link is not touched.  With
    records within their ranges and a header that meets [header_ok] the
    assembly does complete. *)
Theorem loop_checks_link_after_assembly
    {hdr : Metriful_sensor_h} {wifi : WiFi_functions_h} {regs : Sensor_registers}
    (rounds : list Round) (dev : Acquisition)
    (g gw : Globals) (evw : list Event) (rest : list Round) :
  wait_for_ready rounds g [] = (gw, evw, Some rest) ->
  let g0 := interrupt (ready_during_readout dev)
              (fst (read_data dev (set_ready_assertion_event false gw))) in
  let before := evw ++ snd (read_data dev (set_ready_assertion_event false gw)) in
  Forall (fun e => ~ link_event e) before /\
  (assembleWebPage g0 = None -> loop rounds dev g = Overrun before) /\
  (forall g1, assembleWebPage g0 = Some g1 ->
     exists g' link,
       loop rounds dev g = Returned g' (before ++ link) /\
       pageBuffer g' = pageBuffer g1 /\
       (createWifiNetwork g = true -> link = [] /\ theIP g' = theIP g) /\
       (createWifiNetwork g = false -> wifiStatus dev = WL_CONNECTED ->
        link = [WiFi_status] /\ theIP g' = theIP g) /\
       (createWifiNetwork g = false -> wifiStatus dev <> WL_CONNECTED ->
        link = [WiFi_status;
                Serial_print "Wifi status: ";
                Serial_println (interpret_WiFi_status (wifiStatus dev));
                ConnectToWiFi SSID password;
                WiFi_localIP;
                Serial_print "View your page at http://";
                Serial_println_IP (reconnect_localIP dev)] /\
        theIP g' = reconnect_localIP dev)) /\
  (header_ok -> records_in_range g0 ->
   exists g1, assembleWebPage g0 = Some g1 /\ pageBuffer g1 = page_text g0).
Proof.
  intros Hwait g0 before.
  destruct (wait_for_ready_spec rounds g []) as (b & more & Hg & Hev & Hmore & _).
  rewrite Hwait in Hg, Hev. cbn [fst snd app] in Hg, Hev. subst gw evw.
  destruct (read_data_flag dev (set_ready_assertion_event b g) false)
    as (_ & _ & Hmode & Hip & _).
  assert (Hloop : loop rounds dev g =
                  match assembleWebPage g0 with
                  | None => Overrun before
                  | Some g1 =>
                      Returned (fst (check_WiFi dev g1)) (before ++ snd (check_WiFi dev g1))
                  end).
  { unfold loop. rewrite Hwait. unfold acquire. subst g0 before.
    destruct (read_data dev (set_ready_assertion_event false
                               (set_ready_assertion_event b g))) as [gr evr].
    cbn [fst snd].
    destruct (assembleWebPage (interrupt (ready_during_readout dev) gr)) as [g1|];
      [|reflexivity].
    destruct (check_WiFi dev g1) as [gc evc]. cbn [fst snd].
    now rewrite app_assoc. }
  split; [|split; [|split]].
  - apply Forall_app. split; [|apply read_data_events].
    eapply Forall_impl; [|exact Hmore]. intros e. apply waiting_event_not_link.
  - intros Hrun. now rewrite Hloop, Hrun.
  - intros g1 Hrun. rewrite Hloop, Hrun.
    exists (fst (check_WiFi dev g1)), (snd (check_WiFi dev g1)).
    split; [reflexivity|].
    pose proof (only_buffers_assembleWebPage g0 g1 Hrun) as Hframe.
    assert (Hmode1 : createWifiNetwork g1 = createWifiNetwork g)
      by (rewrite Hframe; exact Hmode).
    assert (Hip1 : theIP g1 = theIP g) by (rewrite Hframe; exact Hip).
    unfold check_WiFi. rewrite Hmode1.
    destruct (createWifiNetwork g);
      [|destruct (Z.eqb_spec (wifiStatus dev) WL_CONNECTED)];
      cbn [negb fst snd theIP pageBuffer with_buffers set_lineBuffer set_pageBuffer
           set_ready_assertion_event set_theIP interrupt];
      (split; [reflexivity|]);
      repeat split; intros;
      first [discriminate | contradiction | reflexivity | exact Hip1].
  - intros Hh Hrange.
    destruct (assembleWebPage_runs Hh g0 Hrange) as [l Hrun].
    eexists. split; [exact Hrun | reflexivity].
Qed.

Lemma loop_checks_link_after_assembly_witness :
  (exists g' events,
     loop (hdr := MS430 1) (wifi := WiFiNINA) (regs := MS430_registers)
       rounds_example (acquisition_example 6) started_example = Returned g' events /\
     theIP g' = {| ip0 := 192; ip1 := 168; ip2 := 1; ip3 := 8 |}) /\
  (exists events,
     loop (hdr := MS430_UTF8 2) (wifi := WiFiNINA) (regs := MS430_registers)
       rounds_example (acquisition_example 6) started_example = Overrun events /\
     Forall (fun e => ~ link_event e) events).
Proof.
  split.
  - edestruct (loop_checks_link_after_assembly
                 (hdr := MS430 1) (wifi := WiFiNINA) (regs := MS430_registers)
                 rounds_example (acquisition_example 6) started_example)
      as (_ & _ & Hreturned & Hruns).
    + reflexivity.
    + destruct Hruns as (g1 & Hrun & _).
      * apply MS430_header_ok.
      * repeat constructor; cbn; unfold uint8, uint16, uint32, fr_1dp, fr_2dp; lia.
      * destruct (Hreturned g1 Hrun) as (g' & link & Hloop & _ & _ & _ & Hdown).
        do 2 eexists. split; [exact Hloop|].
        apply Hdown; [reflexivity | discriminate].
  - edestruct (loop_checks_link_after_assembly
                 (hdr := MS430_UTF8 2) (wifi := WiFiNINA) (regs := MS430_registers)
                 rounds_example (acquisition_example 6) started_example)
      as (Hquiet & Hoverrun & _).
    + reflexivity.
    + eexists. split; [apply Hoverrun; reflexivity | exact Hquiet].
Defined.
